(** * A to-do list front end: request client and reconciliation controller

    A shallow embedding of [src/todo_frontend/src/api/todos.js] (the request
    client) and of the logic of [src/todo_frontend/src/App.js] (the
    controller held by the [App] component), with the properties of the
    specification stated over it.

    - [Js]    : the JavaScript values and operators the two files rely on.
    - [Todos] : [api/todos.js] ([fetchJson] and the four client calls).
    - [App]   : [App.js] ([normalizeTodo], [toErrorMessage], the component
                state and its five operations). *)

From Stdlib Require Import ZArith List Bool Ascii String Lia.
From Stdlib Require Import Numbers.DecimalString.
From Stdlib Require Numbers.DecimalZ Numbers.DecimalPos.
Import ListNotations.

Set Warnings "-register-all".

Open Scope string_scope.
Open Scope Z_scope.

(* ================================================================== *)
(** * JavaScript values *)
(* ================================================================== *)

Module Js.

(** Values as the program meets them: the results of [JSON.parse]
    ([res.json()]), the text of a body ([res.text()]), and [undefined] for an
    absent property.  Numbers are the integers of a JSON payload (a
    fractional number behaves as a non-zero integer under every operator
    used here).  A string is a sequence of code units below 256.  Arrays and
    objects carry the address [ref] of their allocation: [===] on them is
    identity, not structure.  An object is its list of own properties, in
    order, each key occurring once. *)
Inductive JsVal : Type :=
| JUndefined
| JNull
| JBool (b : bool)
| JNum (n : Z)
| JStr (s : string)
| JArr (ref : nat) (elems : list JsVal)
| JObj (ref : nat) (props : list (string * JsVal)).

(** [Boolean(v)], [!!v]. *)
Definition truthy (v : JsVal) : bool :=
  match v with
  | JUndefined | JNull => false
  | JBool b => b
  | JNum n => negb (n =? 0)
  | JStr s => negb (String.eqb s "")
  | JArr _ _ | JObj _ _ => true
  end.

(** [v === undefined || v === null]. *)
Definition nullish (v : JsVal) : bool :=
  match v with
  | JUndefined | JNull => true
  | _ => false
  end.

(** [a ?? b] *)
Definition coalesce (a b : JsVal) : JsVal := if nullish a then b else a.

(** [a || b] *)
Definition js_or (a b : JsVal) : JsVal := if truthy a then a else b.

(** [a && b] *)
Definition js_and (a b : JsVal) : JsVal := if truthy a then b else a.

Fixpoint lookup (k : string) (ps : list (string * JsVal)) : JsVal :=
  match ps with
  | [] => JUndefined
  | (k', v) :: rest => if String.eqb k k' then v else lookup k rest
  end.

(** [v?.k] for the property names the program reads ([id], [title],
    [items], [detail], ...): none of them is defined on a primitive, on an
    array or on [Object.prototype], so only an object's own property
    answers; on [null] and [undefined] the optional chain gives
    [undefined]. *)
Definition get (v : JsVal) (k : string) : JsVal :=
  match v with
  | JObj _ ps => lookup k ps
  | _ => JUndefined
  end.

(** [a === b] *)
Definition strict_eq (a b : JsVal) : bool :=
  match a, b with
  | JUndefined, JUndefined => true
  | JNull, JNull => true
  | JBool x, JBool y => Bool.eqb x y
  | JNum x, JNum y => x =? y
  | JStr x, JStr y => String.eqb x y
  | JArr r _, JArr r' _ => Nat.eqb r r'
  | JObj r _, JObj r' _ => Nat.eqb r r'
  | _, _ => false
  end.

(** [typeof v] *)
Definition typeof (v : JsVal) : string :=
  match v with
  | JUndefined => "undefined"
  | JNull => "object"
  | JBool _ => "boolean"
  | JNum _ => "number"
  | JStr _ => "string"
  | JArr _ _ | JObj _ _ => "object"
  end.

Definition Z_to_string (n : Z) : string := NilZero.string_of_int (Z.to_int n).

(** [String(v)], as a template literal and the [Error] constructor apply
    it, where [String] returns and the model has the value: a number is
    printed in full, as [String] prints the integers up to
    [Number.MAX_SAFE_INTEGER] in magnitude; an object is printed as
    [[object Object]], as [String] prints an object without an own property
    [toString] (with one, which JSON makes a non-function, [String]
    throws). *)
Fixpoint to_string (v : JsVal) : string :=
  match v with
  | JUndefined => "undefined"
  | JNull => "null"
  | JBool true => "true"
  | JBool false => "false"
  | JNum n => Z_to_string n
  | JStr s => s
  | JArr _ elems =>
      (fix join (l : list JsVal) : string :=
         match l with
         | [] => ""
         | x :: rest =>
             let sx := if nullish x then "" else to_string x in
             match rest with
             | [] => sx
             | _ :: _ => sx ++ "," ++ join rest
             end
         end) elems
  | JObj _ _ => "[object Object]"
  end.

(** ** Strings *)

(** White space and line terminators, as [String.prototype.trim] removes
    them, among the code units below 256. *)
Definition is_space (c : ascii) : bool :=
  let n := nat_of_ascii c in
  (Nat.eqb n 9 || Nat.eqb n 10 || Nat.eqb n 11 || Nat.eqb n 12
   || Nat.eqb n 13 || Nat.eqb n 32 || Nat.eqb n 160)%bool.

Fixpoint trim_start (s : string) : string :=
  match s with
  | EmptyString => EmptyString
  | String c s' => if is_space c then trim_start s' else s
  end.

Fixpoint trim_end (s : string) : string :=
  match s with
  | EmptyString => EmptyString
  | String c s' =>
      match trim_end s' with
      | EmptyString => if is_space c then EmptyString else String c EmptyString
      | r => String c r
      end
  end.

(** [s.trim()] *)
Definition trim (s : string) : string := trim_end (trim_start s).

Fixpoint whitespace_only (s : string) : bool :=
  match s with
  | EmptyString => true
  | String c s' => is_space c && whitespace_only s'
  end.

(** [hay.includes(needle)] *)
Fixpoint includes (needle hay : string) : bool :=
  if String.prefix needle hay then true
  else match hay with
       | EmptyString => false
       | String _ hay' => includes needle hay'
       end.

End Js.

(* ================================================================== *)
(** * The request client, [api/todos.js] *)
(* ================================================================== *)

Module Todos.
Import Js.

Definition DEFAULT_TIMEOUT_MS : Z := 15000.

(** ** Exceptions *)

(** An [Error] object: its [name], its [message], and the two properties
    [fetchJson] adds to the error of a failed response ([None] when the
    property was never set). *)
Record JsError : Type := {
  err_name : string;
  err_message : string;
  err_status : option Z;
  err_payload : option JsVal
}.

(** What a [throw] or a rejected promise carries. *)
Inductive Exn : Type :=
| ExnValue (v : JsVal)
| ExnError (e : JsError).

Inductive Result (A : Type) : Type :=
| Ok (a : A)
| Throw (e : Exn).
Arguments Ok {A} a.
Arguments Throw {A} e.

Definition bind {A B} (r : Result A) (k : A -> Result B) : Result B :=
  match r with
  | Ok a => k a
  | Throw e => Throw e
  end.

(** [p.catch(h)], [try { r } catch (e) { h e }] *)
Definition catch {A} (r : Result A) (h : Exn -> Result A) : Result A :=
  match r with
  | Ok a => Ok a
  | Throw e => h e
  end.

Notation "x <- r ;; k" := (bind r (fun x => k))
  (at level 61, r at next level, right associativity).

(** [new Error(message)] *)
Definition new_Error (message : string) : JsError :=
  {| err_name := "Error"; err_message := message;
     err_status := None; err_payload := None |}.

(** [e?.name] *)
Definition exn_name (e : Exn) : JsVal :=
  match e with
  | ExnValue v => get v "name"
  | ExnError e => JStr (err_name e)
  end.

(** ** The network, as [fetch] shows it

    Time is counted in milliseconds from the call of [fetchJson].  An
    [AbortSignal] is given by the time at which it aborts and the reason
    it aborts with, if it ever does; a pending step that would settle at
    [t] is cut short by a signal that aborts at [a] when [a < t], and is
    then rejected with the reason of the signal. *)
Definition Signal : Type := option (Z * Exn).

Definition aborted (sig : Signal) (t : Z) : bool :=
  match sig with
  | Some (a, _) => a <? t
  | None => false
  end.

(** The reason of an abort without a reason of its own, as of
    [controller.abort()]: the [DOMException] named [AbortError]. *)
Definition AbortError : Exn :=
  ExnError {| err_name := "AbortError";
              err_message := "signal is aborted without reason";
              err_status := None; err_payload := None |}.

(** [signal.reason] *)
Definition abort_reason (sig : Signal) : Exn :=
  match sig with
  | Some (_, reason) => reason
  | None => AbortError
  end.

Definition SyntaxError : Exn :=
  ExnError {| err_name := "SyntaxError";
              err_message := "Unexpected token in JSON";
              err_status := None; err_payload := None |}.

(** A response: its status line and content type arrive when [fetch]
    resolves, its body is complete at [body_at].  [body_json] is the value
    [JSON.parse] gives for the body, [None] when the body is not JSON. *)
Record Response : Type := {
  status : Z;
  content_type : option string;
  body_at : Z;
  body_text : string;
  body_json : option JsVal
}.

(** [res.ok] *)
Definition ok (res : Response) : bool :=
  (200 <=? status res) && (status res <=? 299).

(** [res.json()] and [res.text()] under the signal given to [fetch]. *)
Definition res_json (sig : Signal) (res : Response) : Result JsVal :=
  if aborted sig (body_at res) then Throw (abort_reason sig)
  else match body_json res with
       | Some v => Ok v
       | None => Throw SyntaxError
       end.

Definition res_text (sig : Signal) (res : Response) : Result JsVal :=
  if aborted sig (body_at res) then Throw (abort_reason sig)
  else Ok (JStr (body_text res)).

Inductive Settle : Type :=
| Resolves (res : Response)
| Rejects (e : Exn).

(** What the network does with one request when nothing aborts it. *)
Record Exchange : Type := {
  settles_at : Z;
  outcome : Settle
}.

(** The second argument of [fetch].  [req_body] is the value whose JSON
    text is sent. *)
Record Request : Type := {
  url : string;
  req_method : string;
  req_body : option JsVal
}.

(** [fetch(url, {..., signal})] *)
Definition fetch (net : Request -> Exchange) (req : Request) (sig : Signal)
  : Result Response :=
  let ex := net req in
  if aborted sig (settles_at ex) then Throw (abort_reason sig)
  else match outcome ex with
       | Resolves res => Ok res
       | Rejects e => Throw e
       end.

(** ** URLs *)

(** [s.replace(/\/*$/, "")] *)
Fixpoint strip_trailing_slashes (s : string) : string :=
  match s with
  | EmptyString => EmptyString
  | String c s' =>
      match strip_trailing_slashes s' with
      | EmptyString =>
          if Ascii.eqb c "/" then EmptyString else String c EmptyString
      | r => String c r
      end
  end.

Definition unreserved (c : ascii) : bool :=
  let n := nat_of_ascii c in
  ((Nat.leb 65 n && Nat.leb n 90) || (Nat.leb 97 n && Nat.leb n 122)
   || (Nat.leb 48 n && Nat.leb n 57)
   || existsb (Ascii.eqb c) (list_ascii_of_string "-_.!~*'()"))%bool.

Definition hex_digit (n : nat) : ascii :=
  nth n (list_ascii_of_string "0123456789ABCDEF") "0"%char.

Definition percent (n : nat) : string :=
  String "%" (String (hex_digit (n / 16)) (String (hex_digit (n mod 16)) "")).

(** One code unit below 256 is one or two bytes of UTF-8. *)
Definition encode_unit (c : ascii) : string :=
  let n := nat_of_ascii c in
  if unreserved c then String c ""
  else if Nat.ltb n 128 then percent n
  else percent (192 + n / 64) ++ percent (128 + n mod 64).

Fixpoint encode_units (s : string) : string :=
  match s with
  | EmptyString => EmptyString
  | String c s' => encode_unit c ++ encode_units s'
  end.

(** [encodeURIComponent(v)]: the text of the segment as it is put in the
    URL, on the values [to_string] covers (a string of code units below 256
    holds no lone surrogate, on which the built-in throws). *)
Definition encodeURIComponent (v : JsVal) : string :=
  encode_units (to_string v).

(** ** [fetchJson] and the four calls *)

(** The second parameter of [fetchJson]: [{ method = "GET", body, signal }].
    [None] is a property left out. *)
Record Options : Type := {
  method : option string;
  body : option JsVal;
  signal : option Signal
}.

Definition no_options : Options :=
  {| method := None; body := None; signal := None |}.

Definition timed_out_message : string := "Request timed out. Please try again.".

Section Client.

(** [process.env.REACT_APP_TODO_API_BASE_URL] *)
Variable REACT_APP_TODO_API_BASE_URL : option string.

Variable net : Request -> Exchange.

Definition baseUrl : string :=
  match REACT_APP_TODO_API_BASE_URL with
  | Some u =>
      match strip_trailing_slashes u with
      | EmptyString => "http://localhost:3001"
      | b => b
      end
  | None => "http://localhost:3001"
  end.

(** The message of the error of a response that is not [ok]. *)
Definition failure_message (payload : JsVal) (res : Response) : JsVal :=
  js_or
    (js_or
       (js_and (js_and payload (JBool (String.eqb (typeof payload) "object")))
               (get payload "detail"))
       (js_and (JBool (String.eqb (typeof payload) "string")) payload))
    (JStr ("Request failed with status " ++ Z_to_string (status res))).

Definition fetchJson (path : string) (opts : Options) : Result JsVal :=
  let url := baseUrl ++ path in
  (* const controller = new AbortController();
     const timeout = setTimeout(() => controller.abort(), DEFAULT_TIMEOUT_MS); *)
  let controller_signal : Signal := Some (DEFAULT_TIMEOUT_MS, AbortError) in
  let sig : Signal :=
    match signal opts with
    | Some s => s
    | None => controller_signal
    end in
  catch
    (res <- fetch net
              {| url := url;
                 req_method := match method opts with
                               | Some m => m
                               | None => "GET"
                               end;
                 req_body := body opts |}
              sig ;;
     let contentType :=
       match content_type res with
       | Some c => c
       | None => ""
       end in
     let isJson := includes "application/json" contentType in
     payload <- (if isJson
                 then catch (res_json sig res) (fun _ => Ok JNull)
                 else res_text sig res) ;;
     if negb (ok res) then
       Throw (ExnError
                {| err_name := "Error";
                   err_message := to_string (failure_message payload res);
                   err_status := Some (status res);
                   err_payload := Some payload |})
     else Ok payload)
    (fun e =>
       if strict_eq (exn_name e) (JStr "AbortError")
       then Throw (ExnError (new_Error timed_out_message))
       else Throw e).

Definition listTodos : Result JsVal :=
  fetchJson "/todos" no_options.

Definition createTodo (title : JsVal) : Result JsVal :=
  fetchJson "/todos"
    {| method := Some "POST";
       body := Some (JObj 0 [("title", title)]);
       signal := None |}.

Definition updateTodo (id : JsVal) (updates : JsVal) : Result JsVal :=
  fetchJson ("/todos/" ++ encodeURIComponent id)
    {| method := Some "PUT"; body := Some updates; signal := None |}.

Definition deleteTodo (id : JsVal) : Result JsVal :=
  fetchJson ("/todos/" ++ encodeURIComponent id)
    {| method := Some "DELETE"; body := None; signal := None |}.

End Client.

(** A run of [k] slashes. *)
Fixpoint slashes (k : nat) : string :=
  match k with
  | O => ""
  | S k' => String "/" (slashes k')
  end.

(** ** Reading an encoded component back

    The first code unit of an encoded string and the rest of the string,
    the way [decodeURIComponent] reads it; [None] on what [encode_unit]
    never writes. *)
Definition hex_value (c : ascii) : option nat :=
  let n := nat_of_ascii c in
  if (Nat.leb 48 n && Nat.leb n 57)%bool then Some (n - 48)%nat
  else if (Nat.leb 65 n && Nat.leb n 70)%bool then Some (n - 55)%nat
  else None.

Definition decode_byte (s : string) : option (nat * string) :=
  match s with
  | String p (String h1 (String h2 rest)) =>
      if Ascii.eqb p "%" then
        match hex_value h1, hex_value h2 with
        | Some a, Some b => Some (16 * a + b, rest)%nat
        | _, _ => None
        end
      else None
  | _ => None
  end.

Definition decode_unit (s : string) : option (ascii * string) :=
  match s with
  | EmptyString => None
  | String c rest =>
      if Ascii.eqb c "%" then
        match decode_byte s with
        | Some (b, rest1) =>
            if Nat.ltb b 128 then Some (ascii_of_nat b, rest1)
            else match decode_byte rest1 with
                 | Some (b2, rest2) =>
                     Some (ascii_of_nat ((b - 192) * 64 + (b2 - 128)), rest2)
                 | None => None
                 end
        | None => None
        end
      else Some (c, rest)
  end.

End Todos.

(* ================================================================== *)
(** * The controller, [App.js] *)
(* ================================================================== *)

Module App.
Import Js Todos.

(** ** Tasks *)

Record Todo : Type := {
  id : JsVal;
  title : JsVal;
  completed : bool;
  raw : JsVal
}.

Definition normalizeTodo (raw : JsVal) : Todo :=
  {| id := coalesce (coalesce (get raw "id") (get raw "todo_id")) (get raw "_id");
     title := coalesce (coalesce (get raw "title") (get raw "text")) (JStr "");
     completed :=
       truthy (coalesce (coalesce (get raw "completed") (get raw "is_completed"))
                        (get raw "done"));
     raw := raw |}.

Definition toErrorMessage (e : Exn) : JsVal :=
  match e with
  | ExnValue v =>
      if negb (truthy v) then JStr "Unknown error"
      else if String.eqb (typeof v) "string" then v
      else js_or (get v "message") (JStr "Something went wrong")
  | ExnError err =>
      js_or (JStr (err_message err)) (JStr "Something went wrong")
  end.

(** [{ ...t, completed: c }] and [{ ...t, title: s }] *)
Definition with_completed (c : bool) (t : Todo) : Todo :=
  {| id := id t; title := title t; completed := c; raw := raw t |}.

Definition with_title (s : JsVal) (t : Todo) : Todo :=
  {| id := id t; title := s; completed := completed t; raw := raw t |}.

(** [t.id !== undefined && t.id !== null], the test of [refresh]. *)
Definition has_id (t : Todo) : bool :=
  negb (strict_eq (id t) JUndefined) && negb (strict_eq (id t) JNull).

(** ** The state of the component *)

(** A call of the request client, as the controller issues it. *)
Inductive Call : Type :=
| CallList
| CallCreate (title : JsVal)
| CallUpdate (id : JsVal) (updates : JsVal)
| CallDelete (id : JsVal).

(** The [useState] cells of [App], and the calls issued so far (oldest
    first).  [error] is [null] or the message in the banner; [savingIds] is
    the [Set], in insertion order. *)
Record State : Type := {
  todos : list Todo;
  initialLoading : bool;
  savingIds : list JsVal;
  error : JsVal;
  newTitle : string;
  editingId : JsVal;
  editingTitle : string;
  calls : list Call
}.

Definition initial : State :=
  {| todos := []; initialLoading := true; savingIds := []; error := JNull;
     newTitle := ""; editingId := JNull; editingTitle := ""; calls := [] |}.

Definition setTodos (f : list Todo -> list Todo) (st : State) : State :=
  {| todos := f (todos st); initialLoading := initialLoading st;
     savingIds := savingIds st; error := error st; newTitle := newTitle st;
     editingId := editingId st; editingTitle := editingTitle st;
     calls := calls st |}.

Definition setInitialLoading (b : bool) (st : State) : State :=
  {| todos := todos st; initialLoading := b;
     savingIds := savingIds st; error := error st; newTitle := newTitle st;
     editingId := editingId st; editingTitle := editingTitle st;
     calls := calls st |}.

Definition setSavingIds (f : list JsVal -> list JsVal) (st : State) : State :=
  {| todos := todos st; initialLoading := initialLoading st;
     savingIds := f (savingIds st); error := error st; newTitle := newTitle st;
     editingId := editingId st; editingTitle := editingTitle st;
     calls := calls st |}.

Definition setError (e : JsVal) (st : State) : State :=
  {| todos := todos st; initialLoading := initialLoading st;
     savingIds := savingIds st; error := e; newTitle := newTitle st;
     editingId := editingId st; editingTitle := editingTitle st;
     calls := calls st |}.

Definition setNewTitle (s : string) (st : State) : State :=
  {| todos := todos st; initialLoading := initialLoading st;
     savingIds := savingIds st; error := error st; newTitle := s;
     editingId := editingId st; editingTitle := editingTitle st;
     calls := calls st |}.

Definition setEditingId (v : JsVal) (st : State) : State :=
  {| todos := todos st; initialLoading := initialLoading st;
     savingIds := savingIds st; error := error st; newTitle := newTitle st;
     editingId := v; editingTitle := editingTitle st;
     calls := calls st |}.

Definition setEditingTitle (s : string) (st : State) : State :=
  {| todos := todos st; initialLoading := initialLoading st;
     savingIds := savingIds st; error := error st; newTitle := newTitle st;
     editingId := editingId st; editingTitle := s;
     calls := calls st |}.

(** The request leaves: the call joins the log. *)
Definition issue (c : Call) (st : State) : State :=
  {| todos := todos st; initialLoading := initialLoading st;
     savingIds := savingIds st; error := error st; newTitle := newTitle st;
     editingId := editingId st; editingTitle := editingTitle st;
     calls := calls st ++ [c] |}.

(** [next.add(id)] and [next.delete(id)] on a copy of the [Set]. *)
Definition set_add (v : JsVal) (s : list JsVal) : list JsVal :=
  if existsb (strict_eq v) s then s else s ++ [v].

Definition set_delete (v : JsVal) (s : list JsVal) : list JsVal :=
  filter (fun x => negb (strict_eq v x)) s.

Definition setSaving (id : JsVal) (isSaving : bool) (st : State) : State :=
  setSavingIds (fun prev => if isSaving then set_add id prev else set_delete id prev) st.

Definition isSaving (st : State) (todoId : JsVal) : bool :=
  existsb (strict_eq todoId) (savingIds st).

(** ** Operations

    An [async] handler runs to its first [await], stops there while the
    call is under way, and goes on when the call settles; other handlers
    may run in between.  Each handler is therefore given by the state
    transformers of its stretches, and by their composition: the handler run
    with no other one in between, as a function of how its calls settle.

    A handler is a closure of the render that made it: what it reads from
    the cells directly ([newTitle], [editingTitle], [todos]) is the content
    [view] of the cells at that render, while an updater passed to a setter
    ([setTodos(prev => ...)]) receives the current content. *)

(** [arr.map(f)], a [TypeError] when [arr] is no array. *)
Definition array_map {A} (f : JsVal -> A) (arr : JsVal) : Result (list A) :=
  match arr with
  | JArr _ l => Ok (map f l)
  | _ => Throw (ExnError {| err_name := "TypeError";
                            err_message := "arr.map is not a function";
                            err_status := None; err_payload := None |})
  end.

Definition is_array (v : JsVal) : bool :=
  match v with
  | JArr _ _ => true
  | _ => false
  end.

(** *** Refresh *)

Definition refresh_begin (st : State) : State :=
  issue CallList (setError JNull st).

Definition refresh_end (listed : Result JsVal) (st : State) : State :=
  setInitialLoading false
    (match (res <- listed ;;
            let arr :=
              if is_array res then res
              else js_or (js_or (get res "items") (get res "todos")) (JArr 0 []) in
            mapped <- array_map normalizeTodo arr ;;
            Ok (filter has_id mapped))
     with
     | Ok l => setTodos (fun _ => l) st
     | Throw e => setError (toErrorMessage e) st
     end).

Definition refresh (st : State) (listed : Result JsVal) : State :=
  refresh_end listed (refresh_begin st).

(** *** Add *)

(** [`temp-${Date.now()}`] *)
Definition tempId (now : Z) : JsVal := JStr ("temp-" ++ Z_to_string now).

Definition handleAdd_begin (now : Z) (view : State) (st : State) : State :=
  let title := trim (newTitle view) in
  let optimistic :=
    {| id := tempId now; title := JStr title; completed := false; raw := JNull |} in
  issue (CallCreate (JStr title))
    (setNewTitle ""
       (setTodos (fun prev => optimistic :: prev)
          (setError JNull st))).

Definition handleAdd_created (now : Z) (created : JsVal) (st : State) : State :=
  let normalized := normalizeTodo created in
  setTodos (map (fun t => if strict_eq (id t) (tempId now) then normalized else t)) st.

(** The [catch]: [refresh()] is called and not awaited, it runs to its own
    [await] before [handleAdd] returns. *)
Definition handleAdd_failed (e : Exn) (st : State) : State :=
  refresh_begin (setError (toErrorMessage e) st).

Definition handleAdd (now : Z) (view : State) (st : State)
  (created listed : Result JsVal) : State :=
  let title := trim (newTitle view) in
  if negb (truthy (JStr title)) then st
  else
    let st1 := handleAdd_begin now view st in
    match created with
    | Ok c => handleAdd_created now c st1
    | Throw e => refresh_end listed (handleAdd_failed e st1)
    end.

(** *** Toggle *)

Definition handleToggle_begin (todo : Todo) (st : State) : State :=
  let nextCompleted := negb (completed todo) in
  issue (CallUpdate (id todo) (JObj 0 [("completed", JBool nextCompleted)]))
    (setTodos
       (map (fun t => if strict_eq (id t) (id todo)
                      then with_completed nextCompleted t else t))
       (setSaving (id todo) true (setError JNull st))).

Definition handleToggle (st : State) (todo : Todo)
  (updated listed : Result JsVal) : State :=
  if negb (truthy (id todo)) then st
  else
    let st1 := handleToggle_begin todo st in
    let st2 :=
      match updated with
      | Ok _ => st1
      | Throw e => refresh (setError (toErrorMessage e) st1) listed
      end in
    setSaving (id todo) false st2.

(** *** Edit *)

Definition cancelEdit (st : State) : State :=
  setEditingTitle "" (setEditingId JNull st).

Definition saveEdit_begin (view : State) (todo : Todo) (st : State) : State :=
  let title := trim (editingTitle view) in
  issue (CallUpdate (id todo) (JObj 0 [("title", JStr title)]))
    (setTodos
       (map (fun t => if strict_eq (id t) (id todo)
                      then with_title (JStr title) t else t))
       (setSaving (id todo) true (setError JNull st))).

Definition saveEdit (view : State) (st : State) (todo : Todo)
  (updated listed : Result JsVal) : State :=
  let title := trim (editingTitle view) in
  if negb (truthy (JStr title)) then st
  else
    let st1 := saveEdit_begin view todo st in
    let st2 :=
      match updated with
      | Ok _ => cancelEdit st1
      | Throw e => refresh (setError (toErrorMessage e) st1) listed
      end in
    setSaving (id todo) false st2.

(** *** Delete *)

Definition handleDelete_begin (todo : Todo) (st : State) : State :=
  issue (CallDelete (id todo))
    (setTodos (filter (fun t => negb (strict_eq (id t) (id todo))))
       (setSaving (id todo) true (setError JNull st))).

Definition handleDelete_end (view : State) (todo : Todo)
  (deleted : Result JsVal) (st : State) : State :=
  let before := todos view in
  setSaving (id todo) false
    (match deleted with
     | Ok _ => st
     | Throw e => setTodos (fun _ => before) (setError (toErrorMessage e) st)
     end).

Definition handleDelete (view : State) (st : State) (todo : Todo)
  (deleted : Result JsVal) : State :=
  if negb (truthy (id todo)) then st
  else handleDelete_end view todo deleted (handleDelete_begin todo st).

(** ** The invariant of the data model *)

(** Every task of the list has an identifier that is neither [null] nor
    [undefined]. *)
Definition identified (l : list Todo) : Prop :=
  Forall (fun t => nullish (id t) = false) l.

(** ** What the component renders from its state *)

(** The counts of the badge, [stats]. *)
Record Stats : Type := {
  total : Z;
  done : Z;
  open : Z
}.

Definition stats (st : State) : Stats :=
  let total := Z.of_nat (List.length (todos st)) in
  let done := Z.of_nat (List.length (filter (fun t => completed t) (todos st))) in
  {| total := total; done := done; open := total - done |}.

Definition isBusy (st : State) : bool := initialLoading st.

(** [disabled] of the Add button: [isBusy || !newTitle.trim()]. *)
Definition addDisabled (st : State) : bool :=
  isBusy st || negb (truthy (JStr (trim (newTitle st)))).

(** [disabled] of the Save button of the row of [t]:
    [saving || !editingTitle.trim()]. *)
Definition saveDisabled (st : State) (t : Todo) : bool :=
  isSaving st (id t) || negb (truthy (JStr (trim (editingTitle st)))).


(** The content of the list: the loading row, the empty row, or one row
    for each task. *)
Inductive ListView : Type :=
| LoadingRow
| NoTasksRow
| Rows (l : list Todo).

Definition listView (st : State) : ListView :=
  if initialLoading st then LoadingRow
  else if Nat.eqb (List.length (todos st)) 0 then NoTasksRow
  else Rows (todos st).

End App.

(* ================================================================== *)
(** * Properties *)
(* ================================================================== *)

Import Js Todos App.

(** ** Values and strings *)

Lemma strict_eq_refl (v : JsVal) : strict_eq v v = true.
Proof.
  destruct v; simpl; auto.
  - apply Bool.eqb_reflx.
  - apply Z.eqb_refl.
  - apply String.eqb_refl.
  - apply Nat.eqb_refl.
  - apply Nat.eqb_refl.
Qed.

Lemma truthy_not_nullish (v : JsVal) : truthy v = true -> nullish v = false.
Proof. destruct v; simpl; congruence. Qed.

Lemma has_id_nullish (t : Todo) : has_id t = negb (nullish (id t)).
Proof. unfold has_id. destruct (id t); reflexivity. Qed.

Lemma trim_start_blank (s : string) :
  whitespace_only s = true -> trim_start s = "".
Proof.
  induction s as [|c s IH]; simpl; intros H; [reflexivity|].
  apply andb_prop in H. destruct H as [Hc Hs]. rewrite Hc. auto.
Qed.

Lemma trim_end_blank (s : string) :
  trim_end s = "" -> whitespace_only s = true.
Proof.
  induction s as [|c s IH]; simpl; intros H; [reflexivity|].
  destruct (trim_end s); [|discriminate].
  destruct (is_space c); [|discriminate].
  simpl. auto.
Qed.

Lemma trim_start_suffix_blank (s : string) :
  whitespace_only (trim_start s) = true -> whitespace_only s = true.
Proof.
  induction s as [|c s IH]; simpl; intros H; [reflexivity|].
  destruct (is_space c) eqn:Hc; simpl in *.
  - auto.
  - rewrite Hc in H. discriminate.
Qed.

(** A title trims to the empty string exactly when it is empty or made of
    white space only. *)
Lemma trim_empty_iff (s : string) :
  trim s = "" <-> whitespace_only s = true.
Proof.
  unfold trim. split; intros H.
  - apply trim_start_suffix_blank, trim_end_blank, H.
  - rewrite (trim_start_blank s H). reflexivity.
Qed.

Lemma truthy_JStr (s : string) : truthy (JStr s) = true <-> s <> "".
Proof.
  simpl. destruct (String.eqb_spec s ""); simpl; split; congruence.
Qed.

(* ------------------------------------------------------------------ *)
(** ** Normalization *)
(* ------------------------------------------------------------------ *)

Lemma coalesce_nullish (a b : JsVal) :
  nullish (coalesce a b) = true <-> nullish a = true /\ nullish b = true.
Proof.
  unfold coalesce. destruct (nullish a) eqn:Ha; split.
  - auto.
  - intros [_ H]. exact H.
  - intros H. rewrite Ha in H. discriminate.
  - intros [H _]. discriminate.
Qed.

Ltac rewrite_nullish :=
  repeat match goal with
         | H : nullish _ = _ |- _ => rewrite H
         end.

(** The identifier of a normalized record is resolved exactly when one of
    the three fields is present. *)
Lemma normalizeTodo_id_resolved (raw : JsVal) :
  nullish (id (normalizeTodo raw)) = false <->
  exists k, In k ["id"; "todo_id"; "_id"] /\ nullish (get raw k) = false.
Proof.
  simpl id. split.
  - intros H.
    destruct (nullish (get raw "id")) eqn:H1;
      [destruct (nullish (get raw "todo_id")) eqn:H2|].
    + exists "_id". split; [simpl; auto|].
      unfold coalesce in H. rewrite H1, H2 in H. exact H.
    + exists "todo_id". split; [simpl; auto|exact H2].
    + exists "id". split; [simpl; auto|exact H1].
  - intros (k & Hk & Hn).
    destruct (nullish (coalesce (coalesce (get raw "id") (get raw "todo_id"))
                                (get raw "_id"))) eqn:E; [|reflexivity].
    apply coalesce_nullish in E. destruct E as [E E3].
    apply coalesce_nullish in E. destruct E as [E1 E2].
    simpl in Hk. destruct Hk as [<-|[<-|[<-|[]]]]; congruence.
Qed.

(** C3, as the code has it: each of the three normalized fields is the
    first of its source fields that is present (neither [null] nor
    [undefined]), in the order [id], [todo_id], [_id] for the identifier and
    [title], [text] for the title (the empty string when neither is
    present); [completed] is the truth value of the first present field
    among [completed], [is_completed], [done], and is false when none is
    present. *)
Theorem normalizeTodo_first_present (raw : JsVal) :
  let t := normalizeTodo raw in
  (nullish (get raw "id") = false -> id t = get raw "id")
  /\ (nullish (get raw "id") = true -> nullish (get raw "todo_id") = false ->
      id t = get raw "todo_id")
  /\ (nullish (get raw "id") = true -> nullish (get raw "todo_id") = true ->
      id t = get raw "_id")
  /\ (nullish (get raw "title") = false -> title t = get raw "title")
  /\ (nullish (get raw "title") = true -> nullish (get raw "text") = false ->
      title t = get raw "text")
  /\ (nullish (get raw "title") = true -> nullish (get raw "text") = true ->
      title t = JStr "")
  /\ (completed t = true <->
        truthy (get raw "completed") = true
        \/ (nullish (get raw "completed") = true
            /\ truthy (get raw "is_completed") = true)
        \/ (nullish (get raw "completed") = true
            /\ nullish (get raw "is_completed") = true
            /\ truthy (get raw "done") = true)).
Proof.
  cbv zeta. unfold normalizeTodo, coalesce. simpl.
  repeat split; try (intros; rewrite_nullish; reflexivity).
  - destruct (nullish (get raw "completed")) eqn:Hc.
    + destruct (nullish (get raw "is_completed")) eqn:Hi; intros H.
      * right; right. auto.
      * right; left. auto.
    + rewrite Hc. intros H. left. exact H.
  - intros [H|[[Hc H]|(Hc & Hi & H)]].
    + rewrite !(truthy_not_nullish _ H). exact H.
    + rewrite !Hc, !(truthy_not_nullish _ H). exact H.
    + rewrite !Hc, !Hi. exact H.
Qed.

Lemma normalizeTodo_first_present_witness :
  let raw := JObj 1 [("todo_id", JNum 7); ("text", JStr "Buy milk");
                     ("completed", JNull); ("done", JBool true)] in
  id (normalizeTodo raw) = JNum 7
  /\ title (normalizeTodo raw) = JStr "Buy milk"
  /\ completed (normalizeTodo raw) = true.
Proof.
  cbv zeta.
  destruct (normalizeTodo_first_present
              (JObj 1 [("todo_id", JNum 7); ("text", JStr "Buy milk");
                       ("completed", JNull); ("done", JBool true)]))
    as (_ & Hid & _ & _ & Htitle & _ & Hdone).
  split; [|split].
  - apply Hid; reflexivity.
  - apply Htitle; reflexivity.
  - apply Hdone. right; right. repeat split.
Defined.

(** C3, as the specification words it, fails: a record with
    [completed: false] and [done: true] has a field among the three that is
    present with a truthy value, and normalizes to [completed = false]. *)
Lemma completed_false_hides_done :
  let raw := JObj 1 [("id", JNum 1); ("title", JStr "Buy milk");
                     ("completed", JBool false); ("done", JBool true)] in
  truthy (get raw "done") = true
  /\ completed (normalizeTodo raw) = false.
Proof. cbv zeta. split; reflexivity. Qed.

(** C10: normalization answers on every input.  On [null], on
    [undefined] and on any value that has none of the recognized fields
    the title is the empty string and [completed] is false; a record of a
    listed array that has an identifier and no title is in the list after
    Refresh, with the empty title. *)
Theorem normalizeTodo_total_defaults :
  normalizeTodo JNull =
    {| id := JUndefined; title := JStr ""; completed := false; raw := JNull |}
  /\ normalizeTodo JUndefined =
    {| id := JUndefined; title := JStr ""; completed := false; raw := JUndefined |}
  /\ (forall raw,
        (forall k, In k ["id"; "todo_id"; "_id"; "title"; "text";
                         "completed"; "is_completed"; "done"] ->
                   get raw k = JUndefined) ->
        normalizeTodo raw =
          {| id := JUndefined; title := JStr ""; completed := false; raw := raw |})
  /\ (forall st r records record,
        In record records ->
        nullish (id (normalizeTodo record)) = false ->
        nullish (get record "title") = true ->
        nullish (get record "text") = true ->
        In (normalizeTodo record) (todos (refresh st (Ok (JArr r records))))
        /\ title (normalizeTodo record) = JStr ""
        /\ error (refresh st (Ok (JArr r records))) = JNull).
Proof.
  split; [reflexivity|]. split; [reflexivity|]. split.
  - intros raw H. unfold normalizeTodo.
    rewrite !H by (simpl; tauto). reflexivity.
  - intros st r records record Hin Hid Ht Hx.
    split; [|split].
    + simpl. apply filter_In. split.
      * apply in_map. exact Hin.
      * rewrite has_id_nullish, Hid. reflexivity.
    + simpl. unfold coalesce. rewrite Ht, Hx. reflexivity.
    + reflexivity.
Qed.

Lemma normalizeTodo_total_defaults_witness :
  let record := JObj 2 [("id", JNum 5)] in
  In (normalizeTodo record)
     (todos (refresh initial (Ok (JArr 1 [JNull; record; JStr "x"]))))
  /\ title (normalizeTodo record) = JStr ""
  /\ normalizeTodo (JNum 3) =
       {| id := JUndefined; title := JStr ""; completed := false; raw := JNum 3 |}.
Proof.
  cbv zeta.
  destruct normalizeTodo_total_defaults as (_ & _ & Hnone & Hrefresh).
  destruct (Hrefresh initial 1%nat [JNull; JObj 2 [("id", JNum 5)]; JStr "x"]
              (JObj 2 [("id", JNum 5)]))
    as (Hin & Ht & _); try reflexivity.
  - simpl. auto.
  - split; [exact Hin|]. split; [exact Ht|].
    apply Hnone. intros k _. reflexivity.
Defined.

(* ------------------------------------------------------------------ *)
(** ** Blank titles *)
(* ------------------------------------------------------------------ *)

(** C9: Add with an empty or white-space-only title, and Edit whose
    trimmed title is empty, leave the whole state as it was: the list, the
    banner, the edit mode and the log of calls. *)
Theorem blank_title_is_noop
  (now : Z) (view st : State) (todo : Todo) (r1 r2 : Result JsVal) :
  (whitespace_only (newTitle view) = true ->
     handleAdd now view st r1 r2 = st)
  /\ (trim (editingTitle view) = "" ->
     saveEdit view st todo r1 r2 = st
     /\ editingId (saveEdit view st todo r1 r2) = editingId st
     /\ calls (saveEdit view st todo r1 r2) = calls st).
Proof.
  split.
  - intros H. apply trim_empty_iff in H.
    unfold handleAdd. rewrite H. reflexivity.
  - intros H. unfold saveEdit. rewrite H. simpl. auto.
Qed.

Lemma blank_title_is_noop_witness :
  let st :=
    {| todos := [normalizeTodo (JObj 1 [("id", JNum 1); ("title", JStr "a")])];
       initialLoading := false; savingIds := []; error := JNull;
       newTitle := "   "; editingId := JNum 1; editingTitle := " ";
       calls := [CallList] |} in
  let todo := normalizeTodo (JObj 1 [("id", JNum 1); ("title", JStr "a")]) in
  handleAdd 1700000000000 st st (Ok JNull) (Ok JNull) = st
  /\ saveEdit st st todo (Ok JNull) (Ok JNull) = st.
Proof.
  cbv zeta.
  match goal with
  | |- handleAdd ?n ?s ?s ?a ?b = _ /\ saveEdit _ _ ?t _ _ = _ =>
      destruct (blank_title_is_noop n s s t a b) as [Hadd Hedit]
  end.
  split.
  - apply Hadd. reflexivity.
  - apply Hedit. reflexivity.
Defined.

(* ------------------------------------------------------------------ *)
(** ** Refresh *)
(* ------------------------------------------------------------------ *)

(** What [refresh] makes of a payload: the tasks it shows, or the
    exception of its [try] block. *)
Lemma refresh_listed_array (st : State) (r : nat) (l : list JsVal) :
  todos (refresh st (Ok (JArr r l))) = filter has_id (map normalizeTodo l)
  /\ error (refresh st (Ok (JArr r l))) = JNull.
Proof. split; reflexivity. Qed.

Lemma refresh_listed_wrapped (st : State) (res : JsVal) (r : nat) (l : list JsVal) :
  is_array res = false ->
  js_or (js_or (get res "items") (get res "todos")) (JArr 0 []) = JArr r l ->
  todos (refresh st (Ok res)) = filter has_id (map normalizeTodo l)
  /\ error (refresh st (Ok res)) = JNull.
Proof.
  intros Hres Harr. unfold refresh, refresh_end. simpl bind.
  rewrite Hres, Harr. split; reflexivity.
Qed.

(** The error of the banner after a Refresh depends on how the list call
    settled, and on nothing that was there before. *)
Lemma refresh_error_fresh (st st' : State) (listed : Result JsVal) :
  error (refresh st listed) = error (refresh st' listed).
Proof.
  unfold refresh, refresh_end.
  destruct listed as [res|e]; simpl bind; [|reflexivity].
  destruct (array_map normalizeTodo _); reflexivity.
Qed.

(** C2, as the code has it: a bare array, an object with an array under
    [items], and an object without a truthy [items] and with an array under
    [todos] are accepted, and the list shows every record of the array that
    has an identifier; a payload that is no array and has no truthy [items]
    or [todos] is accepted too, as the empty list, and signals nothing; a
    truthy value under [items] (or, failing that, [todos]) that is no array
    is signaled as an error and leaves the list as it was. *)
Theorem refresh_response_shapes (st : State) (res : JsVal) :
  (forall r l,
      res = JArr r l
      \/ (is_array res = false /\ get res "items" = JArr r l)
      \/ (is_array res = false /\ truthy (get res "items") = false
          /\ get res "todos" = JArr r l) ->
      todos (refresh st (Ok res)) = filter has_id (map normalizeTodo l)
      /\ error (refresh st (Ok res)) = JNull)
  /\ (is_array res = false ->
      truthy (get res "items") = false ->
      truthy (get res "todos") = false ->
      todos (refresh st (Ok res)) = [] /\ error (refresh st (Ok res)) = JNull)
  /\ (forall v,
      is_array res = false ->
      js_or (get res "items") (get res "todos") = v ->
      truthy v = true ->
      is_array v = false ->
      todos (refresh st (Ok res)) = todos st
      /\ error (refresh st (Ok res)) = JStr "arr.map is not a function").
Proof.
  split; [|split].
  - intros r l [->|[[Hres Hitems]|(Hres & Hitems & Htodos)]].
    + apply refresh_listed_array.
    + apply (refresh_listed_wrapped st res r l); [exact Hres|].
      rewrite Hitems. reflexivity.
    + apply (refresh_listed_wrapped st res r l); [exact Hres|].
      unfold js_or at 2. rewrite Hitems, Htodos. reflexivity.
  - intros Hres Hitems Htodos.
    apply (refresh_listed_wrapped st res 0 []); [exact Hres|].
    unfold js_or at 2. rewrite Hitems. unfold js_or. rewrite Htodos.
    reflexivity.
  - intros v Hres Hv Ht Harr.
    unfold refresh, refresh_end. simpl bind.
    rewrite Hres, Hv.
    destruct v; try discriminate;
      unfold js_or; rewrite Ht; split; reflexivity.
Qed.

Lemma refresh_response_shapes_witness :
  let task := JObj 2 [("id", JNum 1); ("title", JStr "Buy milk")] in
  todos (refresh initial (Ok (JObj 1 [("todos", JArr 3 [task; JObj 4 []])])))
    = [normalizeTodo task]
  /\ todos (refresh initial (Ok (JStr "<html></html>"))) = []
  /\ error (refresh initial (Ok (JObj 1 [("items", JNum 3)])))
       = JStr "arr.map is not a function".
Proof.
  cbv zeta. split; [|split].
  - destruct (refresh_response_shapes initial
                (JObj 1 [("todos",
                          JArr 3 [JObj 2 [("id", JNum 1); ("title", JStr "Buy milk")];
                                  JObj 4 []])]))
      as (H & _ & _).
    apply (H 3%nat
             [JObj 2 [("id", JNum 1); ("title", JStr "Buy milk")]; JObj 4 []]).
    right; right. repeat split.
  - destruct (refresh_response_shapes initial (JStr "<html></html>"))
      as (_ & H & _).
    apply H; reflexivity.
  - destruct (refresh_response_shapes initial (JObj 1 [("items", JNum 3)]))
      as (_ & _ & H).
    apply (H (JNum 3)); reflexivity.
Defined.

(** C2, as the specification words it, fails: the service answers
    [200] with the JSON object [{"data": [...]}], which is no array and
    has the tasks under neither [items] nor [todos]; the client hands the
    payload over, Refresh shows an empty list and the banner stays empty. *)
Lemma unknown_shape_shown_as_empty_list :
  let payload :=
    JObj 1 [("data", JArr 2 [JObj 3 [("id", JNum 1); ("title", JStr "Buy milk")]])] in
  let net := fun _ : Request =>
    {| settles_at := 40;
       outcome := Resolves {| status := 200;
                              content_type := Some "application/json";
                              body_at := 45;
                              body_text := "";
                              body_json := Some payload |} |} in
  listTodos None net = Ok payload
  /\ is_array payload = false
  /\ get payload "items" = JUndefined
  /\ get payload "todos" = JUndefined
  /\ error (refresh initial (listTodos None net)) = JNull
  /\ todos (refresh initial (listTodos None net)) = [].
Proof. cbv zeta. repeat split. Qed.

(* ------------------------------------------------------------------ *)
(** ** The banner after a failure *)
(* ------------------------------------------------------------------ *)

Lemma js_or_truthy (a b : JsVal) : truthy b = true -> truthy (js_or a b) = true.
Proof. unfold js_or. destruct (truthy a) eqn:Ha; auto. Qed.

(** The message made of a caught exception is never [null]: a banner that
    holds it is shown. *)
Lemma toErrorMessage_truthy (e : Exn) : truthy (toErrorMessage e) = true.
Proof.
  destruct e as [v|err]; simpl.
  - destruct (truthy v) eqn:Hv; simpl; [|reflexivity].
    destruct (String.eqb (typeof v) "string"); [exact Hv|].
    apply js_or_truthy. reflexivity.
  - apply js_or_truthy. reflexivity.
Qed.

(** Delete keeps the message of its failure in the banner. *)
Lemma handleDelete_failure_banner (view st : State) (todo : Todo) (e : Exn) :
  truthy (id todo) = true ->
  error (handleDelete view st todo (Throw e)) = toErrorMessage e.
Proof. intros H. unfold handleDelete. rewrite H. reflexivity. Qed.

(** In [handleAdd] the banner is empty again before the handler returns. *)
Lemma handleAdd_failed_banner (e : Exn) (st : State) :
  error (handleAdd_failed e st) = JNull.
Proof. reflexivity. Qed.

(** After a failed update the banner is the one the recovery Refresh
    leaves, whatever the failure was. *)
Lemma recovery_banner_is_refresh_banner
  (view st st' : State) (todo : Todo) (e : Exn) (listed : Result JsVal) :
  truthy (id todo) = true ->
  trim (editingTitle view) <> "" ->
  error (handleToggle st todo (Throw e) listed) = error (refresh st' listed)
  /\ error (saveEdit view st todo (Throw e) listed) = error (refresh st' listed).
Proof.
  intros Hid Hedit. apply truthy_JStr in Hedit.
  unfold handleToggle, saveEdit. rewrite Hid, Hedit.
  split; apply (refresh_error_fresh _ st' listed).
Qed.

(** C1 on the code: when the call of Add, Toggle or Edit fails with [e]
    and the list call of the recovery Refresh gives an array, the banner is
    [null] once the operation is over, and not the message of [e]:
    [refresh] starts with [setError(null)]. *)
Theorem recovery_refresh_clears_banner
  (now : Z) (view st : State) (todo : Todo) (e : Exn)
  (r : nat) (l : list JsVal) :
  trim (newTitle view) <> "" ->
  truthy (id todo) = true ->
  trim (editingTitle view) <> "" ->
  error (handleAdd now view st (Throw e) (Ok (JArr r l))) = JNull
  /\ error (handleToggle st todo (Throw e) (Ok (JArr r l))) = JNull
  /\ error (saveEdit view st todo (Throw e) (Ok (JArr r l))) = JNull
  /\ toErrorMessage e <> JNull.
Proof.
  intros Hadd Hid Hedit.
  apply truthy_JStr in Hadd. apply truthy_JStr in Hedit.
  unfold handleAdd, handleToggle, saveEdit.
  rewrite Hadd, Hid, Hedit.
  repeat split.
  intros H. pose proof (toErrorMessage_truthy e) as Ht.
  rewrite H in Ht. discriminate.
Qed.

Lemma recovery_refresh_clears_banner_witness :
  let task := JObj 2 [("id", JNum 4); ("title", JStr "Buy milk")] in
  let st :=
    {| todos := [normalizeTodo task];
       initialLoading := false; savingIds := []; error := JNull;
       newTitle := "Walk"; editingId := JNum 4; editingTitle := "Buy oat milk";
       calls := [CallList] |} in
  let boom := ExnError (new_Error "Request failed with status 500") in
  error (handleToggle st (normalizeTodo task) (Throw boom) (Ok (JArr 1 [task])))
    = JNull
  /\ toErrorMessage boom = JStr "Request failed with status 500".
Proof.
  cbv zeta. split; [|reflexivity].
  match goal with
  | |- error (handleToggle ?s ?t (Throw ?b) (Ok (JArr ?r ?l))) = _ =>
      destruct (recovery_refresh_clears_banner 1700000000000 s s t b r l)
        as (_ & H & _)
  end.
  - simpl. discriminate.
  - reflexivity.
  - simpl. discriminate.
  - exact H.
Defined.

(* ------------------------------------------------------------------ *)
(** ** Toggle and Delete *)
(* ------------------------------------------------------------------ *)

(** With an identifier that passes the guard, Toggle flips the task in the
    list and sends the update before anything is awaited. *)
Lemma handleToggle_begin_flips (st : State) (todo : Todo) :
  In todo (todos st) ->
  In (with_completed (negb (completed todo)) todo)
     (todos (handleToggle_begin todo st))
  /\ calls (handleToggle_begin todo st) =
       (calls st ++ [CallUpdate (id todo)
                       (JObj 0 [("completed", JBool (negb (completed todo)))])])%list.
Proof.
  intros Hin. split; [|reflexivity].
  simpl. apply in_map_iff. exists todo. split; [|exact Hin].
  rewrite strict_eq_refl. reflexivity.
Qed.

(** C4 on the code: the guard of Toggle and of Delete is [!todo?.id], so
    an identifier that is present and falsy (the number [0], the empty
    string, [false]) is refused like a missing one: the task is not
    flipped, not removed, and no call is sent; the state, log of calls
    included, is left as it was. *)
Theorem falsy_identifier_is_refused
  (view st : State) (todo : Todo) (updated listed deleted : Result JsVal) :
  nullish (id todo) = false ->
  truthy (id todo) = false ->
  handleToggle st todo updated listed = st
  /\ handleDelete view st todo deleted = st.
Proof.
  intros _ H. unfold handleToggle, handleDelete. rewrite H. auto.
Qed.

Lemma falsy_identifier_is_refused_witness :
  let task := JObj 2 [("id", JNum 0); ("title", JStr "Buy milk")] in
  let st := refresh initial (Ok (JArr 1 [task])) in
  todos st = [normalizeTodo task]
  /\ nullish (id (normalizeTodo task)) = false
  /\ handleToggle st (normalizeTodo task) (Ok JNull) (Ok JNull) = st
  /\ handleDelete st st (normalizeTodo task) (Ok JNull) = st.
Proof.
  cbv zeta. split; [reflexivity|]. split; [reflexivity|].
  match goal with
  | |- handleToggle ?s ?t ?u ?li = _ /\ handleDelete ?v _ _ ?d = _ =>
      apply (falsy_identifier_is_refused v s t u li d)
  end; reflexivity.
Defined.

(** Delete of a task of the list whose identifier passes the guard
    takes it out of the list at once, and leaves in every task with another
    identifier; when the delete call then fails, with no other operation in
    between, the list is the one of before: the same task at every index. *)
Theorem delete_failure_restores_list (st : State) (todo : Todo) (e : Exn) :
  In todo (todos st) ->
  truthy (id todo) = true ->
  let mid := handleDelete_begin todo st in
  let final := handleDelete st st todo (Throw e) in
  ~ In todo (todos mid)
  /\ (forall t, In t (todos st) -> strict_eq (id t) (id todo) = false ->
                In t (todos mid))
  /\ calls mid = (calls st ++ [CallDelete (id todo)])%list
  /\ final = handleDelete_end st todo (Throw e) mid
  /\ todos final = todos st
  /\ (forall i, nth_error (todos final) i = nth_error (todos st) i).
Proof.
  intros Hin Hid. cbv zeta.
  assert (Hfinal : todos (handleDelete st st todo (Throw e)) = todos st).
  { unfold handleDelete. rewrite Hid. reflexivity. }
  repeat split.
  - simpl. intros H. apply filter_In in H. destruct H as [_ H].
    rewrite strict_eq_refl in H. discriminate.
  - intros t Ht Hne. simpl. apply filter_In. split; [exact Ht|].
    rewrite Hne. reflexivity.
  - unfold handleDelete. rewrite Hid. reflexivity.
  - exact Hfinal.
  - intros i. rewrite Hfinal. reflexivity.
Qed.

Lemma delete_failure_restores_list_witness :
  let a := normalizeTodo (JObj 2 [("id", JNum 1); ("title", JStr "a")]) in
  let b := normalizeTodo (JObj 3 [("id", JNum 2); ("title", JStr "b")]) in
  let c := normalizeTodo (JObj 4 [("id", JNum 3); ("title", JStr "c")]) in
  let st :=
    {| todos := [a; b; c];
       initialLoading := false; savingIds := []; error := JNull;
       newTitle := ""; editingId := JNull; editingTitle := "";
       calls := [CallList] |} in
  todos (handleDelete_begin b st) = [a; c]
  /\ todos (handleDelete st st b (Throw (ExnError (new_Error "boom")))) = [a; b; c].
Proof.
  cbv zeta. split; [reflexivity|].
  match goal with
  | |- todos (handleDelete ?s ?s ?t (Throw ?e)) = _ =>
      destruct (delete_failure_restores_list s t e) as (_ & _ & _ & _ & H & _)
  end.
  - simpl. auto.
  - reflexivity.
  - exact H.
Defined.

(** C5 on the code: the guard of Delete is [!todo?.id].  A task of the
    list whose identifier is present and falsy (the number [0], the empty
    string) is not removed when Delete is asked for it, at once or later:
    it stays in the list, the list is the one of before and no delete call
    is sent, so that nothing is there for a failure to put back. *)
Theorem delete_keeps_task_with_falsy_identifier
  (st : State) (todo : Todo) (deleted : Result JsVal) :
  In todo (todos st) ->
  nullish (id todo) = false ->
  truthy (id todo) = false ->
  In todo (todos (handleDelete st st todo deleted))
  /\ todos (handleDelete st st todo deleted) = todos st
  /\ calls (handleDelete st st todo deleted) = calls st.
Proof.
  intros Hin _ Hfalsy. unfold handleDelete. rewrite Hfalsy.
  cbn [negb]. split; [exact Hin|]. split; reflexivity.
Qed.

Lemma delete_keeps_task_with_falsy_identifier_witness :
  let task := JObj 2 [("id", JNum 0); ("title", JStr "Buy milk")] in
  let st := refresh initial (Ok (JArr 1 [task; JObj 3 [("id", JNum 1)]])) in
  todos st = [normalizeTodo task; normalizeTodo (JObj 3 [("id", JNum 1)])]
  /\ In (normalizeTodo task)
        (todos (handleDelete st st (normalizeTodo task)
                  (Throw (ExnError (new_Error "boom")))))
  /\ calls (handleDelete st st (normalizeTodo task)
              (Throw (ExnError (new_Error "boom")))) = calls st.
Proof.
  cbv zeta. split; [reflexivity|].
  match goal with
  | |- In ?t (todos (handleDelete ?s ?s ?t ?d)) /\ _ =>
      destruct (delete_keeps_task_with_falsy_identifier s t d) as (H1 & _ & H3)
  end.
  - simpl. auto.
  - reflexivity.
  - reflexivity.
  - split; [exact H1|exact H3].
Defined.

(* ------------------------------------------------------------------ *)
(** ** Add *)
(* ------------------------------------------------------------------ *)

(** C6: with a title that does not trim to the empty string, Add puts
    one placeholder (that title, [completed = false], the temporary
    identifier) in front of the list and sends the create call, before
    anything is awaited.  When the call resolves, in whatever list the
    placeholder then sits, every task with the temporary identifier becomes
    the normalized record of the service, every other task stays, and the
    list keeps its length; run with nothing in between, the list is one
    longer than before the Add and starts with the normalized record. *)
Theorem add_placeholder_then_record
  (now : Z) (view st : State) (created : JsVal) (listed : Result JsVal) :
  trim (newTitle view) <> "" ->
  let st1 := handleAdd_begin now view st in
  todos st1 =
    {| id := tempId now; title := JStr (trim (newTitle view));
       completed := false; raw := JNull |} :: todos st
  /\ calls st1 = (calls st ++ [CallCreate (JStr (trim (newTitle view)))])%list
  /\ (forall later : State,
        let st2 := handleAdd_created now created later in
        List.length (todos st2) = List.length (todos later)
        /\ forall i t,
             nth_error (todos later) i = Some t ->
             nth_error (todos st2) i =
               Some (if strict_eq (id t) (tempId now)
                     then normalizeTodo created else t))
  /\ handleAdd now view st (Ok created) listed = handleAdd_created now created st1
  /\ List.length (todos (handleAdd now view st (Ok created) listed))
       = List.length (todos st1)
  /\ nth_error (todos (handleAdd now view st (Ok created) listed)) 0
       = Some (normalizeTodo created).
Proof.
  intros Htitle. cbv zeta. apply truthy_JStr in Htitle.
  assert (Hrun : handleAdd now view st (Ok created) listed
                 = handleAdd_created now created (handleAdd_begin now view st)).
  { unfold handleAdd. rewrite Htitle. reflexivity. }
  split; [reflexivity|]. split; [reflexivity|]. split; [|split; [exact Hrun|]].
  - intros later. split.
    + simpl. apply List.length_map.
    + intros i t Ht. simpl. rewrite nth_error_map, Ht. reflexivity.
  - rewrite Hrun. split.
    + simpl. rewrite List.length_map. reflexivity.
    + simpl. rewrite String.eqb_refl. reflexivity.
Qed.

Lemma add_placeholder_then_record_witness :
  let old := normalizeTodo (JObj 2 [("id", JNum 7); ("title", JStr "Walk")]) in
  let st :=
    {| todos := [old];
       initialLoading := false; savingIds := []; error := JNull;
       newTitle := " Buy milk "; editingId := JNull; editingTitle := "";
       calls := [CallList] |} in
  let created :=
    JObj 3 [("id", JNum 42); ("title", JStr "Buy milk"); ("completed", JBool false)] in
  todos (handleAdd_begin 1700000000000 st st)
    = [ {| id := JStr "temp-1700000000000"; title := JStr "Buy milk";
           completed := false; raw := JNull |}; old ]
  /\ todos (handleAdd 1700000000000 st st (Ok created) (Ok JNull))
    = [ {| id := JNum 42; title := JStr "Buy milk";
           completed := false; raw := created |}; old ].
Proof.
  cbv zeta.
  match goal with
  | |- todos (handleAdd_begin ?n ?s ?s) = _
       /\ todos (handleAdd ?n ?s ?s (Ok ?c) ?li) = _ =>
      destruct (add_placeholder_then_record n s s c li)
        as (Hbegin & _ & _ & Hrun & _)
  end.
  - simpl. discriminate.
  - split; [rewrite Hbegin; reflexivity|].
    rewrite Hrun. reflexivity.
Defined.

(* ------------------------------------------------------------------ *)
(** ** The invariant *)
(* ------------------------------------------------------------------ *)

Lemma identified_map (f : Todo -> Todo) (l : list Todo) :
  (forall t, id (f t) = id t) -> identified l -> identified (map f l).
Proof.
  intros Hf H. unfold identified in *. apply Forall_map.
  eapply Forall_impl; [|exact H]. simpl. intros t Ht. rewrite Hf. exact Ht.
Qed.

Lemma identified_filter (p : Todo -> bool) (l : list Todo) :
  identified l -> identified (filter p l).
Proof.
  unfold identified. rewrite !Forall_forall. intros H t Ht.
  apply filter_In in Ht. apply H, Ht.
Qed.

Lemma identified_has_id (l : list Todo) : identified (filter has_id l).
Proof.
  unfold identified. apply Forall_forall. intros t Ht.
  apply filter_In in Ht. destruct Ht as [_ Ht].
  rewrite has_id_nullish in Ht. destruct (nullish (id t)); [discriminate|reflexivity].
Qed.

Lemma todos_setSaving (v : JsVal) (b : bool) (st : State) :
  todos (setSaving v b st) = todos st.
Proof. reflexivity. Qed.

(** Refresh establishes the invariant when it succeeds and keeps it when
    it fails. *)
Lemma refresh_identified (st : State) (listed : Result JsVal) :
  identified (todos st) -> identified (todos (refresh st listed)).
Proof.
  intros H. unfold refresh, refresh_end.
  destruct listed as [res|e]; simpl bind; [|exact H].
  destruct (array_map normalizeTodo _) as [mapped|e]; simpl; [|exact H].
  apply identified_has_id.
Qed.

Lemma refresh_success_identified (st : State) (res : JsVal) :
  error (refresh st (Ok res)) = JNull -> identified (todos (refresh st (Ok res))).
Proof.
  unfold refresh, refresh_end. simpl bind.
  destruct (array_map normalizeTodo _) as [mapped|e]; simpl.
  - intros _. apply identified_has_id.
  - intros H. pose proof (toErrorMessage_truthy e) as Ht.
    rewrite H in Ht. discriminate.
Qed.

Lemma handleToggle_identified
  (st : State) (todo : Todo) (updated listed : Result JsVal) :
  identified (todos st) -> identified (todos (handleToggle st todo updated listed)).
Proof.
  intros H. unfold handleToggle.
  destruct (truthy (id todo)); simpl negb; cbv iota; [|exact H].
  rewrite todos_setSaving.
  assert (H1 : identified (todos (handleToggle_begin todo st))).
  { simpl. apply identified_map; [|exact H].
    intros t. destruct (strict_eq (id t) (id todo)); reflexivity. }
  destruct updated as [u|e]; [exact H1|].
  apply refresh_identified. exact H1.
Qed.

Lemma saveEdit_identified
  (view st : State) (todo : Todo) (updated listed : Result JsVal) :
  identified (todos st) -> identified (todos (saveEdit view st todo updated listed)).
Proof.
  intros H. unfold saveEdit.
  destruct (truthy (JStr (trim (editingTitle view)))); simpl negb; cbv iota;
    [|exact H].
  rewrite todos_setSaving.
  assert (H1 : identified (todos (saveEdit_begin view todo st))).
  { simpl. apply identified_map; [|exact H].
    intros t. destruct (strict_eq (id t) (id todo)); reflexivity. }
  destruct updated as [u|e]; [exact H1|].
  apply refresh_identified. exact H1.
Qed.

Lemma handleDelete_identified
  (view st : State) (todo : Todo) (deleted : Result JsVal) :
  identified (todos view) -> identified (todos st) ->
  identified (todos (handleDelete view st todo deleted)).
Proof.
  intros Hv H. unfold handleDelete.
  destruct (truthy (id todo)); simpl negb; cbv iota; [|exact H].
  unfold handleDelete_end. rewrite todos_setSaving.
  destruct deleted as [d|e]; simpl.
  - apply identified_filter, H.
  - exact Hv.
Qed.

(** Add keeps the invariant while the placeholder is shown, and when the
    create call fails. *)
Lemma handleAdd_pending_identified
  (now : Z) (view st : State) (e : Exn) (listed : Result JsVal) :
  identified (todos st) ->
  identified (todos (handleAdd_begin now view st))
  /\ identified (todos (handleAdd now view st (Throw e) listed)).
Proof.
  intros H.
  assert (H1 : identified (todos (handleAdd_begin now view st))).
  { simpl. constructor; [reflexivity|exact H]. }
  split; [exact H1|].
  unfold handleAdd.
  destruct (truthy (JStr (trim (newTitle view)))); simpl negb; cbv iota;
    [|exact H].
  apply (refresh_identified (setError (toErrorMessage e) (handleAdd_begin now view st))).
  exact H1.
Qed.

(** C8 on the code: the record that replaces the placeholder is
    normalized and not filtered.  When the create call resolves with a
    payload in which no identifier is found, the list shows a task whose
    identifier is [undefined] (or [null]): the invariant is lost, from a
    list that had it. *)
Theorem created_record_without_id_is_shown
  (now : Z) (view st : State) (created : JsVal) (listed : Result JsVal) :
  trim (newTitle view) <> "" ->
  nullish (id (normalizeTodo created)) = true ->
  In (normalizeTodo created) (todos (handleAdd now view st (Ok created) listed))
  /\ ~ identified (todos (handleAdd now view st (Ok created) listed)).
Proof.
  intros Htitle Hid. apply truthy_JStr in Htitle.
  assert (Hin : In (normalizeTodo created)
                   (todos (handleAdd now view st (Ok created) listed))).
  { unfold handleAdd. rewrite Htitle. simpl.
    rewrite String.eqb_refl. left. reflexivity. }
  split; [exact Hin|].
  intros H. unfold identified in H. rewrite Forall_forall in H.
  apply H in Hin. congruence.
Qed.

Lemma created_record_without_id_is_shown_witness :
  let st :=
    {| todos := [];
       initialLoading := false; savingIds := []; error := JNull;
       newTitle := "Buy milk"; editingId := JNull; editingTitle := "";
       calls := [CallList] |} in
  let created := JObj 3 [("title", JStr "Buy milk"); ("completed", JBool false)] in
  identified (todos st)
  /\ todos (handleAdd 1700000000000 st st (Ok created) (Ok JNull))
     = [ {| id := JUndefined; title := JStr "Buy milk";
            completed := false; raw := created |} ]
  /\ ~ identified (todos (handleAdd 1700000000000 st st (Ok created) (Ok JNull))).
Proof.
  cbv zeta. split; [constructor|]. split; [reflexivity|].
  match goal with
  | |- ~ identified (todos (handleAdd ?n ?s ?s (Ok ?c) ?li)) =>
      destruct (created_record_without_id_is_shown n s s c li) as [_ H]
  end.
  - simpl. discriminate.
  - reflexivity.
  - exact H.
Defined.

(* ------------------------------------------------------------------ *)
(** ** The timeout of the request client *)
(* ------------------------------------------------------------------ *)

Lemma timeout_is_15_seconds : DEFAULT_TIMEOUT_MS = 15 * 1000.
Proof. reflexivity. Qed.

Lemma aborted_by_timer (t : Z) :
  aborted (Some (DEFAULT_TIMEOUT_MS, AbortError)) t = true
  <-> DEFAULT_TIMEOUT_MS < t.
Proof. simpl. apply Z.ltb_lt. Qed.

Lemma not_aborted_by_timer (t : Z) :
  aborted (Some (DEFAULT_TIMEOUT_MS, AbortError)) t = false
  <-> t <= DEFAULT_TIMEOUT_MS.
Proof. simpl. rewrite Z.ltb_ge. reflexivity. Qed.

(** None of the four calls passes a signal of its own: each is under the
    timer of [fetchJson]. *)
Lemma client_calls_use_the_timer
  (env : option string) (net : Request -> Exchange) (v w : JsVal) :
  exists p1 o1 p2 o2 p3 o3 p4 o4,
    listTodos env net = fetchJson env net p1 o1 /\ signal o1 = None
    /\ createTodo env net v = fetchJson env net p2 o2 /\ signal o2 = None
    /\ updateTodo env net v w = fetchJson env net p3 o3 /\ signal o3 = None
    /\ deleteTodo env net v = fetchJson env net p4 o4 /\ signal o4 = None.
Proof.
  do 8 eexists. repeat split.
Qed.

Section Timeout.

Variable env : option string.
Variable net : Request -> Exchange.
Variable path : string.
Variable opts : Options.
Hypothesis own_timer : signal opts = None.

(** The response has not come when the timer fires: the error of the
    call says so, and has no status. *)
Lemma fetch_pending_at_timeout :
  (forall req, DEFAULT_TIMEOUT_MS < settles_at (net req)) ->
  fetchJson env net path opts = Throw (ExnError (new_Error timed_out_message))
  /\ err_status (new_Error timed_out_message) = None.
Proof.
  intros Hlate. split; [|reflexivity].
  unfold fetchJson, fetch. rewrite own_timer.
  rewrite (proj2 (aborted_by_timer _) (Hlate _)). reflexivity.
Qed.

(** X10: a body that is not announced as JSON and is not read to its end when
    the timer fires: the same error. *)
Lemma text_body_pending_at_timeout (t : Z) (res : Response) :
  (forall req, net req = {| settles_at := t; outcome := Resolves res |}) ->
  t <= DEFAULT_TIMEOUT_MS ->
  includes "application/json"
    (match content_type res with Some c => c | None => "" end) = false ->
  DEFAULT_TIMEOUT_MS < body_at res ->
  fetchJson env net path opts = Throw (ExnError (new_Error timed_out_message)).
Proof.
  intros Hnet Ht Htext Hlate.
  unfold fetchJson, fetch. rewrite own_timer, Hnet. cbn [settles_at outcome].
  rewrite (proj2 (not_aborted_by_timer t) Ht). cbn [bind].
  rewrite Htext. unfold res_text.
  rewrite (proj2 (aborted_by_timer _) Hlate). reflexivity.
Qed.

(** A response in time whose status is not a success: the error carries
    the status and the payload. *)
Lemma failed_response_carries_status (t : Z) (res : Response) :
  (forall req, net req = {| settles_at := t; outcome := Resolves res |}) ->
  t <= DEFAULT_TIMEOUT_MS ->
  body_at res <= DEFAULT_TIMEOUT_MS ->
  ok res = false ->
  exists e,
    fetchJson env net path opts = Throw (ExnError e)
    /\ err_status e = Some (status res)
    /\ (exists payload, err_payload e = Some payload)
    /\ e <> new_Error timed_out_message.
Proof.
  intros Hnet Ht Hbody Hok.
  unfold fetchJson, fetch. rewrite own_timer, Hnet. cbn [settles_at outcome].
  rewrite (proj2 (not_aborted_by_timer t) Ht). cbn [bind].
  unfold res_json, res_text.
  rewrite (proj2 (not_aborted_by_timer _) Hbody).
  destruct (includes _ _); [destruct (body_json res)|];
    cbn [catch bind]; rewrite Hok; cbn [negb catch exn_name err_name strict_eq];
    cbn [String.eqb Ascii.eqb Bool.eqb];
    eexists; (split; [reflexivity|]); cbn [err_status err_payload];
    (split; [reflexivity|]); (split; [eexists; reflexivity|]);
    intros H; apply (f_equal err_status) in H; discriminate.
Qed.

(** C7 on the code: the response comes in time, with a success status and
    a body announced as JSON, and the body is not read to its end when the
    timer fires.  The abort rejects [res.json()], the [.catch(() => null)]
    on it turns the rejection into the payload [null], and the call
    resolves with [null]: no error, and no word of a timeout. *)
Theorem json_body_pending_at_timeout_resolves_null (t : Z) (res : Response) :
  (forall req, net req = {| settles_at := t; outcome := Resolves res |}) ->
  t <= DEFAULT_TIMEOUT_MS ->
  includes "application/json"
    (match content_type res with Some c => c | None => "" end) = true ->
  DEFAULT_TIMEOUT_MS < body_at res ->
  ok res = true ->
  fetchJson env net path opts = Ok JNull.
Proof.
  intros Hnet Ht Hjson Hlate Hok.
  unfold fetchJson, fetch. rewrite own_timer, Hnet. cbn [settles_at outcome].
  rewrite (proj2 (not_aborted_by_timer t) Ht). cbn [bind].
  rewrite Hjson. unfold res_json.
  rewrite (proj2 (aborted_by_timer _) Hlate). cbn [catch bind].
  rewrite Hok. reflexivity.
Qed.

End Timeout.

Lemma json_body_pending_at_timeout_resolves_null_witness :
  let slow := fun _ : Request =>
    {| settles_at := 120;
       outcome := Resolves {| status := 200;
                              content_type := Some "application/json";
                              body_at := 20000;
                              body_text := "";
                              body_json := Some (JArr 1 [JObj 2 [("id", JNum 1)]]) |} |} in
  listTodos None slow = Ok JNull
  /\ todos (refresh initial (listTodos None slow)) = []
  /\ error (refresh initial (listTodos None slow)) = JNull.
Proof.
  cbv zeta.
  assert (H : listTodos None
                (fun _ : Request =>
                   {| settles_at := 120;
                      outcome := Resolves {| status := 200;
                                             content_type := Some "application/json";
                                             body_at := 20000;
                                             body_text := "";
                                             body_json :=
                                               Some (JArr 1 [JObj 2 [("id", JNum 1)]]) |} |})
              = Ok JNull).
  { unfold listTodos.
    eapply json_body_pending_at_timeout_resolves_null.
    - reflexivity.
    - intros req. reflexivity.
    - unfold DEFAULT_TIMEOUT_MS. lia.
    - reflexivity.
    - unfold DEFAULT_TIMEOUT_MS. simpl. lia.
    - reflexivity. }
  rewrite H. repeat split.
Defined.

(* ================================================================== *)
(** * Further properties of the request client *)
(* ================================================================== *)

(** ** The base URL *)

Lemma string_length_app (a b : string) :
  String.length (a ++ b) = (String.length a + String.length b)%nat.
Proof. induction a as [|c a IH]; simpl; [reflexivity|]. rewrite IH. reflexivity. Qed.

Lemma strip_trailing_slashes_idem (s : string) :
  strip_trailing_slashes (strip_trailing_slashes s) = strip_trailing_slashes s.
Proof.
  induction s as [|c s IH]; simpl; [reflexivity|].
  destruct (strip_trailing_slashes s) as [|c' r] eqn:Hs.
  - destruct (Ascii.eqb c "/") eqn:Hc; simpl; [reflexivity|].
    rewrite Hc. reflexivity.
  - simpl in IH. simpl.
    destruct (match strip_trailing_slashes r with
              | "" => if Ascii.eqb c' "/" then "" else String c' ""
              | String a s0 => String c' (String a s0)
              end) eqn:E; [discriminate|].
    rewrite IH. reflexivity.
Qed.

Lemma strip_trailing_slashes_snoc (p : string) :
  strip_trailing_slashes (p ++ "/") = strip_trailing_slashes p.
Proof.
  induction p as [|c p IH]; simpl; [reflexivity|].
  rewrite IH. reflexivity.
Qed.

Lemma strip_trailing_slashes_length (s : string) :
  (String.length (strip_trailing_slashes s) <= String.length s)%nat.
Proof.
  induction s as [|c s IH]; simpl; [lia|].
  destruct (strip_trailing_slashes s).
  - destruct (Ascii.eqb c "/"); simpl; lia.
  - simpl in *. lia.
Qed.

Lemma stripped_has_no_trailing_slash (s : string) :
  strip_trailing_slashes s = s -> forall p, s <> p ++ "/".
Proof.
  intros Hs p ->.
  rewrite strip_trailing_slashes_snoc in Hs.
  pose proof (strip_trailing_slashes_length p) as Hlen.
  rewrite Hs, string_length_app in Hlen. simpl in Hlen. lia.
Qed.

Lemma strip_trailing_slashes_split (u : string) :
  exists k, u = strip_trailing_slashes u ++ slashes k.
Proof.
  induction u as [|c u [k IH]]; simpl.
  - exists 0%nat. reflexivity.
  - destruct (strip_trailing_slashes u) as [|c' r] eqn:Hs.
    + simpl in IH. destruct (Ascii.eqb_spec c "/") as [->|_].
      * exists (S k). simpl. rewrite IH at 1. reflexivity.
      * exists k. simpl. rewrite IH at 1. reflexivity.
    + exists k. simpl. rewrite IH at 1. reflexivity.
Qed.

(** X1: The base URL is never empty and never ends with a slash, so that
    [baseUrl ++ "/todos"] has one slash at the joint; a value of the
    environment is the base URL followed by slashes only, unless it is made
    of slashes only (or is empty), in which case the default is taken. *)
Theorem baseUrl_has_no_trailing_slash (env : option string) :
  baseUrl env <> ""
  /\ (forall p, baseUrl env <> p ++ "/")
  /\ (forall u, env = Some u ->
        (strip_trailing_slashes u = "" /\ baseUrl env = "http://localhost:3001")
        \/ exists k, u = baseUrl env ++ slashes k).
Proof.
  unfold baseUrl. destruct env as [u|].
  - destruct (strip_trailing_slashes u) as [|c r] eqn:Hs.
    + split; [discriminate|]. split.
      * apply stripped_has_no_trailing_slash. reflexivity.
      * intros u' [= <-]. left. auto.
    + split; [discriminate|]. split.
      * apply stripped_has_no_trailing_slash.
        rewrite <- Hs. apply strip_trailing_slashes_idem.
      * intros u' [= <-]. right.
        destruct (strip_trailing_slashes_split u) as [k Hk].
        exists k. rewrite <- Hs. exact Hk.
  - split; [discriminate|]. split.
    + apply stripped_has_no_trailing_slash. reflexivity.
    + intros u [=].
Qed.

Lemma baseUrl_has_no_trailing_slash_witness :
  baseUrl (Some "https://api.example.org/v1//") = "https://api.example.org/v1"
  /\ exists k, "https://api.example.org/v1//" =
               baseUrl (Some "https://api.example.org/v1//") ++ slashes k.
Proof.
  split; [reflexivity|].
  destruct (baseUrl_has_no_trailing_slash (Some "https://api.example.org/v1//"))
    as (_ & _ & H).
  destruct (H "https://api.example.org/v1//" eq_refl) as [[H0 _]|Hk].
  - discriminate H0.
  - exact Hk.
Defined.

(** ** The path segment of an identifier *)

Lemma list_ascii_of_string_app (a b : string) :
  list_ascii_of_string (a ++ b)
  = (list_ascii_of_string a ++ list_ascii_of_string b)%list.
Proof. induction a as [|c a IH]; simpl; [reflexivity|]. rewrite IH. reflexivity. Qed.

Lemma encode_unit_alphabet (c : ascii) :
  forallb (fun x => unreserved x || Ascii.eqb x "%")
          (list_ascii_of_string (encode_unit c)) = true.
Proof.
  destruct c as [[] [] [] [] [] [] [] []]; vm_compute; reflexivity.
Qed.

Lemma decode_encode_unit (c : ascii) (rest : string) :
  decode_unit (encode_unit c ++ rest) = Some (c, rest).
Proof.
  destruct c as [[] [] [] [] [] [] [] []]; vm_compute; reflexivity.
Qed.

(** X2: For an identifier that is a string, or an integer up to
    [Number.MAX_SAFE_INTEGER] in magnitude, the segment that [updateTodo]
    and [deleteTodo] put in the path is written with unreserved characters
    and [%] only: it holds none of [/], [?], [#], [&], [=] and no space. *)
Theorem encodeURIComponent_alphabet (v : JsVal) :
  (exists s, v = JStr s)
  \/ (exists n, v = JNum n /\ Z.abs n <= 9007199254740991) ->
  forallb (fun x => unreserved x || Ascii.eqb x "%")
          (list_ascii_of_string (encodeURIComponent v)) = true
  /\ forall x, In x (list_ascii_of_string (encodeURIComponent v)) ->
               ~ In x (list_ascii_of_string "/?#&= ").
Proof.
  intros _.
  assert (H : forall s,
             forallb (fun x => unreserved x || Ascii.eqb x "%")
                     (list_ascii_of_string (encode_units s)) = true).
  { induction s as [|c s IH]; simpl; [reflexivity|].
    rewrite list_ascii_of_string_app, forallb_app, encode_unit_alphabet, IH.
    reflexivity. }
  split; [apply H|].
  intros x Hx Hbad.
  pose proof (H (to_string v)) as Hall.
  rewrite forallb_forall in Hall. apply Hall in Hx.
  simpl in Hbad.
  destruct Hbad as [<-|[<-|[<-|[<-|[<-|[<-|[]]]]]]]; discriminate Hx.
Qed.

Lemma encodeURIComponent_alphabet_witness :
  encodeURIComponent (JStr "a/b?c=d e") = "a%2Fb%3Fc%3Dd%20e"
  /\ encodeURIComponent (JNum (-42)) = "-42"
  /\ forallb (fun x => unreserved x || Ascii.eqb x "%")
             (list_ascii_of_string (encodeURIComponent (JStr "a/b?c=d e"))) = true.
Proof.
  split; [reflexivity|]. split; [reflexivity|].
  apply (encodeURIComponent_alphabet (JStr "a/b?c=d e")).
  left. exists "a/b?c=d e". reflexivity.
Defined.

(** X3: Two strings that differ are encoded differently: the paths of two
    tasks with distinct string identifiers are distinct. *)
Theorem encodeURIComponent_distinct (a b : string) :
  a <> b ->
  encodeURIComponent (JStr a) <> encodeURIComponent (JStr b).
Proof.
  unfold encodeURIComponent. simpl to_string.
  intros Hab Henc. apply Hab. clear Hab.
  revert b Henc. induction a as [|c a IH]; intros [|d b] Henc.
  - reflexivity.
  - apply (f_equal decode_unit) in Henc. simpl encode_units in Henc.
    rewrite decode_encode_unit in Henc. discriminate.
  - apply (f_equal decode_unit) in Henc. simpl encode_units in Henc.
    rewrite decode_encode_unit in Henc. discriminate.
  - apply (f_equal decode_unit) in Henc. simpl encode_units in Henc.
    rewrite !decode_encode_unit in Henc.
    injection Henc as -> Hrest. f_equal. apply IH, Hrest.
Qed.

Lemma encodeURIComponent_distinct_witness :
  encodeURIComponent (JStr "a/b") <> encodeURIComponent (JStr "a%2Fb").
Proof.
  apply encodeURIComponent_distinct. discriminate.
Defined.

(** ** Responses and rejections *)

(** X4: No exception that leaves [fetchJson] is named [AbortError]. *)
Theorem fetchJson_never_throws_AbortError
  (env : option string) (net : Request -> Exchange)
  (path : string) (opts : Options) (e : Exn) :
  fetchJson env net path opts = Throw e ->
  strict_eq (exn_name e) (JStr "AbortError") = false.
Proof.
  unfold fetchJson.
  match goal with
  | |- catch ?r _ = _ -> _ => destruct r as [a|e0]
  end; cbn [catch]; [discriminate|].
  destruct (strict_eq (exn_name e0) (JStr "AbortError")) eqn:E.
  - intros [= <-]. reflexivity.
  - intros [= <-]. exact E.
Qed.

(** An abort by a signal of the caller leaves with the reason of that
    signal, when the reason is not named [AbortError]. *)
Lemma caller_abort_reason_is_rethrown
  (env : option string) (net : Request -> Exchange)
  (path : string) (opts : Options) (a : Z) (reason : Exn) :
  signal opts = Some (Some (a, reason)) ->
  (forall req, a < settles_at (net req)) ->
  strict_eq (exn_name reason) (JStr "AbortError") = false ->
  fetchJson env net path opts = Throw reason.
Proof.
  intros Hsig Hlate Hname.
  unfold fetchJson, fetch. rewrite Hsig. cbn [aborted abort_reason].
  rewrite (proj2 (Z.ltb_lt _ _) (Hlate _)). cbn [bind catch].
  rewrite Hname. reflexivity.
Qed.

Lemma fetchJson_never_throws_AbortError_witness :
  let net := fun _ : Request =>
    {| settles_at := 10; outcome := Rejects AbortError |} in
  fetchJson None net "/todos" no_options
    = Throw (ExnError (new_Error timed_out_message))
  /\ strict_eq (exn_name (ExnError (new_Error timed_out_message)))
               (JStr "AbortError") = false.
Proof.
  cbv zeta. split; [reflexivity|].
  apply (fetchJson_never_throws_AbortError None
           (fun _ => {| settles_at := 10; outcome := Rejects AbortError |})
           "/todos" no_options).
  reflexivity.
Defined.

Section Responses.

Variable env : option string.
Variable net : Request -> Exchange.
Variable path : string.
Variable opts : Options.
Variable t : Z.

(** X5: a success in time resolves with the payload: the parsed body when the
    content type announces JSON, [null] when that body is no JSON, and the
    text of the body under any other content type (or none). *)
Theorem fetchJson_success_payload (res : Response) :
  signal opts = None ->
  (forall req, net req = {| settles_at := t; outcome := Resolves res |}) ->
  t <= DEFAULT_TIMEOUT_MS ->
  body_at res <= DEFAULT_TIMEOUT_MS ->
  ok res = true ->
  fetchJson env net path opts =
    Ok (if includes "application/json"
             (match content_type res with Some c => c | None => "" end)
        then match body_json res with
             | Some v => v
             | None => JNull
             end
        else JStr (body_text res)).
Proof.
  intros own_timer Hnet Ht Hbody Hok.
  unfold fetchJson, fetch. rewrite own_timer, Hnet. cbn [settles_at outcome].
  rewrite (proj2 (not_aborted_by_timer t) Ht). cbn [bind].
  unfold res_json, res_text.
  rewrite (proj2 (not_aborted_by_timer _) Hbody).
  destruct (includes _ _); [destruct (body_json res)|];
    cbn [catch bind]; rewrite Hok; reflexivity.
Qed.

(** X6: The error of a failed response, read in time, whose [detail], when
    it has a truthy one, is a string: it has the status and the payload,
    and its message is the [detail] of a JSON object when that is a
    non-empty string, else the payload itself when it is a non-empty
    string, else the status in a fixed sentence. *)
Theorem fetchJson_failure_message (res : Response) (payload : JsVal) :
  signal opts = None ->
  (forall req, net req = {| settles_at := t; outcome := Resolves res |}) ->
  t <= DEFAULT_TIMEOUT_MS ->
  body_at res <= DEFAULT_TIMEOUT_MS ->
  ok res = false ->
  payload = (if includes "application/json"
                  (match content_type res with Some c => c | None => "" end)
             then match body_json res with
                  | Some v => v
                  | None => JNull
                  end
             else JStr (body_text res)) ->
  (truthy (get payload "detail") = true ->
   exists d, get payload "detail" = JStr d) ->
  exists message,
    fetchJson env net path opts =
      Throw (ExnError {| err_name := "Error"; err_message := message;
                         err_status := Some (status res);
                         err_payload := Some payload |})
    /\ (forall d, get payload "detail" = JStr d -> d <> "" -> message = d)
    /\ (forall s, payload = JStr s -> s <> "" -> message = s)
    /\ (truthy (get payload "detail") = false ->
        (forall s, payload = JStr s -> s = "") ->
        message = "Request failed with status " ++ Z_to_string (status res)).
Proof.
  intros own_timer Hnet Ht Hbody Hok Hpayload _.
  exists (to_string (failure_message payload res)).
  split.
  - unfold fetchJson, fetch. rewrite own_timer, Hnet. cbn [settles_at outcome].
    rewrite (proj2 (not_aborted_by_timer t) Ht). cbn [bind].
    unfold res_json, res_text.
    rewrite (proj2 (not_aborted_by_timer _) Hbody).
    rewrite Hpayload.
    destruct (includes _ _); [destruct (body_json res)|];
      cbn [catch bind]; rewrite Hok; reflexivity.
  - clear. unfold failure_message. split; [|split].
    + intros d Hd Hne.
      destruct payload as [| |b|n|s|r l|r ps]; try discriminate Hd.
      cbn [get] in Hd. unfold js_or, js_and.
      cbn [truthy typeof String.eqb Ascii.eqb Bool.eqb get].
      rewrite Hd. destruct d as [|a d]; [congruence|]. reflexivity.
    + intros s -> Hs. destruct s as [|a s]; [congruence|]. reflexivity.
    + intros Hd Hs. unfold js_or, js_and.
      destruct payload as [| |b|n|s|r l|r ps].
      * reflexivity.
      * reflexivity.
      * destruct b; reflexivity.
      * destruct (truthy (JNum n)) eqn:Ht;
          repeat (first [rewrite Ht | progress cbv iota]); reflexivity.
      * rewrite (Hs s eq_refl). reflexivity.
      * reflexivity.
      * cbn [get] in Hd. cbn [truthy typeof String.eqb Ascii.eqb Bool.eqb get].
        repeat (first [rewrite Hd | progress cbv iota]). reflexivity.
Qed.

(** X7: a signal given by the caller takes the place of the signal of the
    timer: under a signal that never aborts, a response is awaited and
    returned however late it comes. *)
Theorem fetchJson_own_signal_has_no_timeout (res : Response) (v : JsVal) :
  signal opts = Some None ->
  (forall req, net req = {| settles_at := t; outcome := Resolves res |}) ->
  includes "application/json"
    (match content_type res with Some c => c | None => "" end) = true ->
  body_json res = Some v ->
  ok res = true ->
  fetchJson env net path opts = Ok v.
Proof.
  intros Hsig Hnet Hjson Hv Hok.
  unfold fetchJson, fetch. rewrite Hsig, Hnet. cbn [settles_at outcome aborted bind].
  rewrite Hjson. unfold res_json. cbn [aborted]. rewrite Hv. cbn [catch bind].
  rewrite Hok. reflexivity.
Qed.

(** X8: a rejection of [fetch] before the timer fires goes to the caller as
    it is, unless its name is [AbortError]: then it is reported as a
    timeout, however early it came. *)
Theorem fetchJson_rejection (e : Exn) :
  signal opts = None ->
  (forall req, net req = {| settles_at := t; outcome := Rejects e |}) ->
  t <= DEFAULT_TIMEOUT_MS ->
  fetchJson env net path opts =
    if strict_eq (exn_name e) (JStr "AbortError")
    then Throw (ExnError (new_Error timed_out_message))
    else Throw e.
Proof.
  intros own_timer Hnet Ht.
  unfold fetchJson, fetch. rewrite own_timer, Hnet. cbn [settles_at outcome].
  rewrite (proj2 (not_aborted_by_timer t) Ht). reflexivity.
Qed.

End Responses.

Lemma fetchJson_success_payload_witness :
  let res := {| status := 201; content_type := Some "application/json";
                body_at := 45; body_text := "";
                body_json := Some (JObj 1 [("id", JNum 42)]) |} in
  createTodo None (fun _ => {| settles_at := 40; outcome := Resolves res |})
             (JStr "Buy milk")
  = Ok (JObj 1 [("id", JNum 42)]).
Proof.
  cbv zeta. unfold createTodo.
  apply (fetchJson_success_payload None _ "/todos" _ 40
           {| status := 201; content_type := Some "application/json";
              body_at := 45; body_text := "";
              body_json := Some (JObj 1 [("id", JNum 42)]) |}).
  - reflexivity.
  - intros req. reflexivity.
  - unfold DEFAULT_TIMEOUT_MS. lia.
  - unfold DEFAULT_TIMEOUT_MS. simpl. lia.
  - reflexivity.
Defined.

Lemma fetchJson_failure_message_witness :
  let res := {| status := 404; content_type := Some "application/json";
                body_at := 45; body_text := "";
                body_json := Some (JObj 1 [("detail", JStr "Todo not found")]) |} in
  exists message,
    deleteTodo None (fun _ => {| settles_at := 40; outcome := Resolves res |})
               (JNum 9)
    = Throw (ExnError {| err_name := "Error"; err_message := message;
                         err_status := Some 404;
                         err_payload :=
                           Some (JObj 1 [("detail", JStr "Todo not found")]) |})
    /\ message = "Todo not found".
Proof.
  cbv zeta. unfold deleteTodo.
  destruct (fetchJson_failure_message None
              (fun _ => {| settles_at := 40;
                           outcome := Resolves
                             {| status := 404;
                                content_type := Some "application/json";
                                body_at := 45; body_text := "";
                                body_json :=
                                  Some (JObj 1 [("detail", JStr "Todo not found")]) |} |})
              ("/todos/" ++ encodeURIComponent (JNum 9))
              {| method := Some "DELETE"; body := None; signal := None |}
              40 _ (JObj 1 [("detail", JStr "Todo not found")])
              eq_refl (fun _ => eq_refl))
    as (message & Hthrow & Hdetail & _ & _).
  - unfold DEFAULT_TIMEOUT_MS. lia.
  - unfold DEFAULT_TIMEOUT_MS. simpl. lia.
  - reflexivity.
  - reflexivity.
  - intros _. exists "Todo not found". reflexivity.
  - exists message. split; [exact Hthrow|].
    apply (Hdetail "Todo not found"); [reflexivity|discriminate].
Defined.

Lemma fetchJson_own_signal_has_no_timeout_witness :
  let res := {| status := 200; content_type := Some "application/json";
                body_at := 90000; body_text := "";
                body_json := Some (JArr 1 []) |} in
  fetchJson None (fun _ => {| settles_at := 60000; outcome := Resolves res |})
            "/todos" {| method := None; body := None; signal := Some None |}
  = Ok (JArr 1 []).
Proof.
  cbv zeta.
  apply (fetchJson_own_signal_has_no_timeout None _ "/todos" _ 60000
           {| status := 200; content_type := Some "application/json";
              body_at := 90000; body_text := "";
              body_json := Some (JArr 1 []) |}).
  - reflexivity.
  - intros req. reflexivity.
  - reflexivity.
  - reflexivity.
  - reflexivity.
Defined.

Lemma fetchJson_rejection_witness :
  let failed := ExnError {| err_name := "TypeError"; err_message := "Failed to fetch";
                            err_status := None; err_payload := None |} in
  listTodos None (fun _ => {| settles_at := 5; outcome := Rejects failed |})
  = Throw failed.
Proof.
  cbv zeta. unfold listTodos.
  apply (fetchJson_rejection None _ "/todos" no_options 5
           (ExnError {| err_name := "TypeError"; err_message := "Failed to fetch";
                        err_status := None; err_payload := None |})).
  - reflexivity.
  - intros req. reflexivity.
  - unfold DEFAULT_TIMEOUT_MS. lia.
Defined.

(* ================================================================== *)
(** * Further properties of the controller *)
(* ================================================================== *)

(** ** Strict equality *)

Lemma strict_eq_sym (a b : JsVal) : strict_eq a b = strict_eq b a.
Proof.
  destruct a, b; simpl; try reflexivity.
  - destruct b, b0; reflexivity.
  - apply Z.eqb_sym.
  - apply String.eqb_sym.
  - apply Nat.eqb_sym.
  - apply Nat.eqb_sym.
Qed.

Lemma strict_eq_trans (a b c : JsVal) :
  strict_eq a b = true -> strict_eq b c = true -> strict_eq a c = true.
Proof.
  destruct a, b; simpl; try discriminate; destruct c; simpl;
    try discriminate; try reflexivity.
  - rewrite !Bool.eqb_true_iff. congruence.
  - rewrite !Z.eqb_eq. congruence.
  - rewrite !String.eqb_eq. congruence.
  - rewrite !Nat.eqb_eq. congruence.
  - rewrite !Nat.eqb_eq. congruence.
Qed.

Lemma strict_eq_other (a b c : JsVal) :
  strict_eq a b = true -> strict_eq a c = false -> strict_eq c b = false.
Proof.
  intros Hab Hac. destruct (strict_eq c b) eqn:Hcb; [|reflexivity].
  rewrite strict_eq_sym in Hcb.
  rewrite (strict_eq_sym a c) in Hac.
  rewrite (strict_eq_trans c b a) in Hac.
  - discriminate.
  - rewrite strict_eq_sym. exact Hcb.
  - rewrite strict_eq_sym. exact Hab.
Qed.

(** ** The badge *)

Lemma filter_length_split {A} (p : A -> bool) (l : list A) :
  (List.length (filter p l) + List.length (filter (fun x => negb (p x)) l)
   = List.length l)%nat.
Proof.
  induction l as [|x l IH]; simpl; [reflexivity|].
  destruct (p x); simpl; lia.
Qed.

(** X11: The badge is consistent: the tasks done and the tasks open make the
    total, [open] is the number of tasks that are not completed and is
    never negative; an Add shows one more open task at once, before the
    service has answered. *)
Theorem stats_counts (st : State) (now : Z) (view : State) :
  total (stats st) = done (stats st) + open (stats st)
  /\ 0 <= done (stats st) <= total (stats st)
  /\ open (stats st)
     = Z.of_nat (List.length (filter (fun t => negb (completed t)) (todos st)))
  /\ total (stats (handleAdd_begin now view st)) = total (stats st) + 1
  /\ done (stats (handleAdd_begin now view st)) = done (stats st)
  /\ open (stats (handleAdd_begin now view st)) = open (stats st) + 1.
Proof.
  pose proof (filter_length_split (fun t => completed t) (todos st)) as H.
  cbv beta in H.
  assert (Hadd : todos (handleAdd_begin now view st)
                 = {| id := tempId now; title := JStr (trim (newTitle view));
                      completed := false; raw := JNull |} :: todos st)
    by reflexivity.
  unfold stats. rewrite Hadd.
  cbn [total done open List.length filter completed].
  repeat split; lia.
Qed.

(** ** The set of identifiers in flight *)

Lemma existsb_strict_eq_snoc (w v : JsVal) (s : list JsVal) :
  existsb (strict_eq w) (s ++ [v]) = existsb (strict_eq w) s || strict_eq w v.
Proof. rewrite existsb_app. simpl. rewrite orb_false_r. reflexivity. Qed.

Lemma isSaving_marked (v : JsVal) (st : State) :
  isSaving (setSaving v true st) v = true.
Proof.
  unfold isSaving, setSaving, set_add. simpl.
  destruct (existsb (strict_eq v) (savingIds st)) eqn:E; [exact E|].
  rewrite existsb_strict_eq_snoc, strict_eq_refl. apply orb_true_r.
Qed.

Lemma isSaving_cleared (v : JsVal) (st : State) :
  isSaving (setSaving v false st) v = false.
Proof.
  unfold isSaving, setSaving, set_delete. simpl.
  induction (savingIds st) as [|x s IH]; simpl; [reflexivity|].
  destruct (strict_eq v x) eqn:E; simpl; [exact IH|].
  rewrite E. exact IH.
Qed.

Lemma isSaving_other (v w : JsVal) (b : bool) (st : State) :
  strict_eq v w = false ->
  isSaving (setSaving v b st) w = isSaving st w.
Proof.
  intros Hvw. unfold isSaving, setSaving. simpl. destruct b.
  - unfold set_add. destruct (existsb (strict_eq v) (savingIds st)); [reflexivity|].
    rewrite existsb_strict_eq_snoc, (strict_eq_sym w v), Hvw.
    apply orb_false_r.
  - unfold set_delete.
    induction (savingIds st) as [|x s IH]; simpl; [reflexivity|].
    destruct (strict_eq v x) eqn:E; simpl.
    + rewrite (strict_eq_other v x w E Hvw). exact IH.
    + rewrite IH. reflexivity.
Qed.

(** X12: [setSaving] and [isSaving] are the insertion, the removal and the
    lookup of a set: an identifier marked is in flight, an identifier
    cleared is not (however often it was marked), and marking or clearing
    one identifier changes nothing for another. *)
Theorem setSaving_isSaving (v w : JsVal) (b : bool) (st : State) :
  isSaving (setSaving v true st) v = true
  /\ isSaving (setSaving v false st) v = false
  /\ isSaving (setSaving v false (setSaving v true (setSaving v true st))) v = false
  /\ (strict_eq v w = false ->
      isSaving (setSaving v b st) w = isSaving st w).
Proof.
  split; [apply isSaving_marked|]. split; [apply isSaving_cleared|].
  split; [apply isSaving_cleared|]. apply isSaving_other.
Qed.

Lemma setSaving_isSaving_witness :
  let st := setSaving (JNum 2) true initial in
  isSaving (setSaving (JNum 1) true st) (JNum 2) = true
  /\ isSaving (setSaving (JNum 1) false st) (JNum 2) = true.
Proof.
  cbv zeta.
  destruct (setSaving_isSaving (JNum 1) (JNum 2) true
              (setSaving (JNum 2) true initial)) as (_ & _ & _ & Hadd).
  destruct (setSaving_isSaving (JNum 1) (JNum 2) false
              (setSaving (JNum 2) true initial)) as (_ & _ & _ & Hdel).
  split.
  - rewrite Hadd; reflexivity.
  - rewrite Hdel; reflexivity.
Defined.

Lemma savingIds_refresh (st : State) (listed : Result JsVal) :
  savingIds (refresh st listed) = savingIds st.
Proof.
  unfold refresh, refresh_end.
  destruct listed as [res|e]; simpl bind; [|reflexivity].
  destruct (array_map normalizeTodo _); reflexivity.
Qed.



(** ** Toggle *)

Lemma with_completed_same (t : Todo) : with_completed (completed t) t = t.
Proof. destruct t; reflexivity. Qed.

(** X14: a Toggle that succeeds: every task with the identifier of the row gets
    the negation of what the row showed, nothing else in the list changes
    (the length, the order, the other tasks, the titles), the banner is
    empty and the only call sent is the update with the new value. *)
Theorem toggle_success
  (st : State) (todo : Todo) (u : JsVal) (listed : Result JsVal) :
  truthy (id todo) = true ->
  let st' := handleToggle st todo (Ok u) listed in
  List.length (todos st') = List.length (todos st)
  /\ (forall i t,
        nth_error (todos st) i = Some t ->
        nth_error (todos st') i =
          Some (if strict_eq (id t) (id todo)
                then {| id := id t; title := title t;
                        completed := negb (completed todo); raw := raw t |}
                else t))
  /\ error st' = JNull
  /\ calls st' =
       (calls st ++ [CallUpdate (id todo)
                       (JObj 0 [("completed", JBool (negb (completed todo)))])])%list.
Proof.
  intros Hid. cbv zeta. unfold handleToggle. rewrite Hid. cbn [negb].
  split; [|split; [|split]].
  - simpl. apply List.length_map.
  - intros i t Ht. simpl. rewrite nth_error_map, Ht. reflexivity.
  - reflexivity.
  - reflexivity.
Qed.

Lemma toggle_success_witness :
  let a := normalizeTodo (JObj 2 [("id", JNum 1); ("title", JStr "a")]) in
  let b := normalizeTodo (JObj 3 [("id", JNum 2); ("title", JStr "b")]) in
  let st :=
    {| todos := [a; b]; initialLoading := false; savingIds := []; error := JNull;
       newTitle := ""; editingId := JNull; editingTitle := "";
       calls := [CallList] |} in
  nth_error (todos (handleToggle st b (Ok JNull) (Ok JNull))) 1
    = Some {| id := JNum 2; title := JStr "b"; completed := true;
              raw := JObj 3 [("id", JNum 2); ("title", JStr "b")] |}
  /\ nth_error (todos (handleToggle st b (Ok JNull) (Ok JNull))) 0 = Some a.
Proof.
  cbv zeta.
  match goal with
  | |- nth_error (todos (handleToggle ?s ?t (Ok ?u) ?l)) _ = _ /\ _ =>
      destruct (toggle_success s t u l) as (_ & H & _)
  end.
  - reflexivity.
  - split.
    + rewrite (H 1%nat _ eq_refl). reflexivity.
    + rewrite (H 0%nat _ eq_refl). reflexivity.
Defined.

(** X15: Two successful Toggles of the same row, the second on the row as the
    first left it, give the list back, when the tasks that share the
    identifier of the row agreed with it on [completed]. *)
Theorem toggle_twice_restores
  (st : State) (todo : Todo) (u u' : JsVal) (listed listed' : Result JsVal) :
  truthy (id todo) = true ->
  (forall t, In t (todos st) -> strict_eq (id t) (id todo) = true ->
             completed t = completed todo) ->
  let st1 := handleToggle st todo (Ok u) listed in
  let todo' := with_completed (negb (completed todo)) todo in
  todos (handleToggle st1 todo' (Ok u') listed') = todos st.
Proof.
  intros Hid Hsame. cbv zeta. unfold handleToggle.
  cbn [id with_completed]. rewrite Hid. cbn [negb].
  simpl todos. rewrite map_map. rewrite <- (map_id (todos st)) at 2.
  apply map_ext_in. intros t Ht.
  destruct (strict_eq (id t) (id todo)) eqn:E.
  - cbn [id with_completed]. rewrite E.
    rewrite negb_involutive.
    rewrite <- (Hsame t Ht E). destruct t; reflexivity.
  - rewrite E. reflexivity.
Qed.

Lemma toggle_twice_restores_witness :
  let a := normalizeTodo (JObj 2 [("id", JNum 1); ("title", JStr "a")]) in
  let b := normalizeTodo (JObj 3 [("id", JNum 2); ("done", JBool true)]) in
  let st :=
    {| todos := [a; b]; initialLoading := false; savingIds := []; error := JNull;
       newTitle := ""; editingId := JNull; editingTitle := "";
       calls := [] |} in
  todos (handleToggle (handleToggle st b (Ok JNull) (Ok JNull))
                      (with_completed false b) (Ok JNull) (Ok JNull))
  = [a; b].
Proof.
  cbv zeta.
  match goal with
  | |- todos (handleToggle (handleToggle ?s ?t (Ok ?u) ?l) _ (Ok ?u') ?l') = _ =>
      apply (toggle_twice_restores s t u u' l l')
  end.
  - reflexivity.
  - intros t [<-|[<-|[]]]; simpl; intros H; try discriminate; reflexivity.
Defined.

(** ** Edit *)

(** X16: an Edit that succeeds: every task with the identifier of the row gets
    the trimmed text as its title and nothing else in the list changes;
    the edit mode is closed and its field emptied, the banner is empty, and
    the only call sent is the update with the trimmed title. *)
Theorem edit_success
  (view st : State) (todo : Todo) (u : JsVal) (listed : Result JsVal) :
  trim (editingTitle view) <> "" ->
  let st' := saveEdit view st todo (Ok u) listed in
  let text := JStr (trim (editingTitle view)) in
  List.length (todos st') = List.length (todos st)
  /\ (forall i t,
        nth_error (todos st) i = Some t ->
        nth_error (todos st') i =
          Some (if strict_eq (id t) (id todo)
                then {| id := id t; title := text;
                        completed := completed t; raw := raw t |}
                else t))
  /\ editingId st' = JNull
  /\ editingTitle st' = ""
  /\ error st' = JNull
  /\ calls st' = (calls st ++ [CallUpdate (id todo) (JObj 0 [("title", text)])])%list.
Proof.
  intros Hedit. apply truthy_JStr in Hedit. cbv zeta.
  unfold saveEdit. rewrite Hedit. cbn [negb].
  split; [|split; [|repeat split]].
  - simpl. apply List.length_map.
  - intros i t Ht. simpl. rewrite nth_error_map, Ht. reflexivity.
Qed.

Lemma edit_success_witness :
  let a := normalizeTodo (JObj 2 [("id", JNum 1); ("title", JStr "a")]) in
  let st :=
    {| todos := [a]; initialLoading := false; savingIds := []; error := JNull;
       newTitle := ""; editingId := JNum 1; editingTitle := "  Buy oat milk ";
       calls := [] |} in
  todos (saveEdit st st a (Ok JNull) (Ok JNull))
    = [ {| id := JNum 1; title := JStr "Buy oat milk"; completed := false;
           raw := JObj 2 [("id", JNum 1); ("title", JStr "a")] |} ]
  /\ editingId (saveEdit st st a (Ok JNull) (Ok JNull)) = JNull.
Proof.
  cbv zeta.
  match goal with
  | |- todos (saveEdit ?v ?s ?t (Ok ?u) ?l) = _ /\ _ =>
      destruct (edit_success v s t u l) as (_ & _ & Hmode & _)
  end.
  - simpl. discriminate.
  - split; [reflexivity|exact Hmode].
Defined.

(** X17: Edit has no guard on the identifier: for a row whose identifier is
    [null] or [undefined], where Toggle and Delete do nothing, a Save with
    a title sends the update with that identifier, to the path
    [/todos/null] or [/todos/undefined]. *)
Theorem edit_has_no_identifier_guard
  (view st : State) (todo : Todo) (updated listed deleted : Result JsVal) :
  nullish (id todo) = true ->
  trim (editingTitle view) <> "" ->
  In (CallUpdate (id todo) (JObj 0 [("title", JStr (trim (editingTitle view)))]))
     (calls (saveEdit view st todo updated listed))
  /\ (encodeURIComponent (id todo) = "null"
      \/ encodeURIComponent (id todo) = "undefined")
  /\ calls (handleToggle st todo updated listed) = calls st
  /\ calls (handleDelete view st todo deleted) = calls st.
Proof.
  intros Hid Hedit. apply truthy_JStr in Hedit.
  assert (Hfalsy : truthy (id todo) = false)
    by (destruct (id todo); simpl in *; congruence).
  split; [|split; [|split]].
  - unfold saveEdit. rewrite Hedit. cbn [negb].
    destruct updated as [u|e].
    + simpl. apply in_or_app. right. left. reflexivity.
    + assert (Hcalls : forall s l, calls (refresh s l) = (calls s ++ [CallList])%list).
      { intros s l. unfold refresh, refresh_end.
        destruct l as [res|e0]; simpl bind; [|reflexivity].
        destruct (array_map normalizeTodo _); reflexivity. }
      change (calls (setSaving (id todo) false ?s)) with (calls s).
      cbn [calls setSaving setSavingIds]. rewrite Hcalls.
      apply in_or_app. left. simpl. apply in_or_app. right. left. reflexivity.
  - destruct (id todo); try discriminate Hid; [right|left]; reflexivity.
  - unfold handleToggle. rewrite Hfalsy. reflexivity.
  - unfold handleDelete. rewrite Hfalsy. reflexivity.
Qed.

Lemma edit_has_no_identifier_guard_witness :
  let ghost := normalizeTodo (JObj 3 [("title", JStr "Buy milk")]) in
  let st :=
    {| todos := [ghost]; initialLoading := false; savingIds := []; error := JNull;
       newTitle := ""; editingId := JUndefined; editingTitle := "Buy oat milk";
       calls := [] |} in
  In (CallUpdate JUndefined (JObj 0 [("title", JStr "Buy oat milk")]))
     (calls (saveEdit st st ghost (Ok JNull) (Ok JNull))).
Proof.
  cbv zeta.
  match goal with
  | |- In _ (calls (saveEdit ?v ?s ?t ?u ?l)) =>
      destruct (edit_has_no_identifier_guard v s t u l u) as (H & _)
  end.
  - reflexivity.
  - simpl. discriminate.
  - exact H.
Defined.

(** ** Delete *)

Lemma in_length_pos {A} (x : A) (l : list A) :
  In x l -> (0 < List.length l)%nat.
Proof. destruct l; simpl; [intros []|lia]. Qed.

(** X18: a Delete that succeeds removes every task with the identifier of the
    row and keeps the others; the list is shorter when the row was in it;
    the banner is empty.  Whatever the outcome, the delete call is the only
    call sent: Delete never fetches the list again. *)
Theorem delete_success
  (view st : State) (todo : Todo) (d : JsVal) (deleted : Result JsVal) :
  truthy (id todo) = true ->
  let st' := handleDelete view st todo (Ok d) in
  (forall t, In t (todos st') <->
             In t (todos st) /\ strict_eq (id t) (id todo) = false)
  /\ (In todo (todos st) ->
      (List.length (todos st') < List.length (todos st))%nat)
  /\ error st' = JNull
  /\ calls (handleDelete view st todo deleted)
     = (calls st ++ [CallDelete (id todo)])%list.
Proof.
  intros Hid. cbv zeta. unfold handleDelete. rewrite Hid. cbn [negb].
  split; [|split; [|split]].
  - intros t. simpl. rewrite filter_In.
    destruct (strict_eq (id t) (id todo)); simpl; intuition congruence.
  - intros Hin. simpl.
    pose proof (filter_length_split
                  (fun t => negb (strict_eq (id t) (id todo))) (todos st)) as Hlen.
    assert (Hpos : (0 < List.length
                          (filter (fun x => negb (negb (strict_eq (id x) (id todo))))
                                  (todos st)))%nat).
    { assert (Hin' : In todo (filter (fun x => negb (negb (strict_eq (id x) (id todo))))
                                     (todos st))).
      { apply filter_In. split; [exact Hin|].
        rewrite strict_eq_refl. reflexivity. }
      apply (in_length_pos _ _ Hin'). }
    cbv beta in Hlen. lia.
  - reflexivity.
  - destruct deleted; reflexivity.
Qed.

Lemma delete_success_witness :
  let a := normalizeTodo (JObj 2 [("id", JNum 1); ("title", JStr "a")]) in
  let b := normalizeTodo (JObj 3 [("id", JNum 2); ("title", JStr "b")]) in
  let st :=
    {| todos := [a; b]; initialLoading := false; savingIds := []; error := JNull;
       newTitle := ""; editingId := JNull; editingTitle := "";
       calls := [] |} in
  In b (todos (handleDelete st st a (Ok JNull)))
  /\ ~ In a (todos (handleDelete st st a (Ok JNull))).
Proof.
  cbv zeta.
  match goal with
  | |- In ?b0 (todos (handleDelete ?v ?s ?t (Ok ?d))) /\ _ =>
      destruct (delete_success v s t d (Ok d)) as (H & _); [reflexivity|]
  end.
  split.
  - apply H. split; [simpl; auto|reflexivity].
  - intros Ha. apply H in Ha. destruct Ha as [_ Ha]. discriminate Ha.
Defined.

(** ** What Refresh touches *)

Lemma refresh_frame (st : State) (listed : Result JsVal) :
  savingIds (refresh st listed) = savingIds st
  /\ newTitle (refresh st listed) = newTitle st
  /\ editingId (refresh st listed) = editingId st
  /\ editingTitle (refresh st listed) = editingTitle st
  /\ calls (refresh st listed) = (calls st ++ [CallList])%list
  /\ initialLoading (refresh st listed) = false.
Proof.
  unfold refresh, refresh_end.
  destruct listed as [res|e]; simpl bind; [|repeat split].
  destruct (array_map normalizeTodo _); repeat split.
Qed.

Lemma refresh_failed (st : State) (e : Exn) :
  todos (refresh st (Throw e)) = todos st
  /\ error (refresh st (Throw e)) = toErrorMessage e.
Proof. split; reflexivity. Qed.

(** X19: a Refresh that succeeds replaces the list wholesale: what it shows is
    decided by the payload alone, and nothing that was in the list before
    (a placeholder, an optimistic change) is left.  A Refresh that fails
    leaves the list as it was and shows the message.  In both cases the
    marks of the rows in flight, the input of the new title and the edit
    mode are untouched, and the one call sent is the list call. *)
Theorem refresh_effects (st st' : State) (res : JsVal) (e : Exn)
  (listed : Result JsVal) :
  (error (refresh st (Ok res)) = JNull ->
     todos (refresh st (Ok res)) = todos (refresh st' (Ok res)))
  /\ todos (refresh st (Throw e)) = todos st
  /\ error (refresh st (Throw e)) = toErrorMessage e
  /\ savingIds (refresh st listed) = savingIds st
  /\ newTitle (refresh st listed) = newTitle st
  /\ editingId (refresh st listed) = editingId st
  /\ editingTitle (refresh st listed) = editingTitle st
  /\ calls (refresh st listed) = (calls st ++ [CallList])%list.
Proof.
  split; [|split; [reflexivity|split; [reflexivity|]]].
  - unfold refresh, refresh_end. simpl bind.
    destruct (array_map normalizeTodo _) as [mapped|e0]; simpl.
    + reflexivity.
    + intros H. pose proof (toErrorMessage_truthy e0) as Ht.
      rewrite H in Ht. discriminate.
  - destruct (refresh_frame st listed) as (H1 & H2 & H3 & H4 & H5 & _).
    repeat split; assumption.
Qed.

Lemma refresh_effects_witness :
  let local :=
    {| todos := [ {| id := tempId 5; title := JStr "draft"; completed := false;
                     raw := JNull |} ];
       initialLoading := false; savingIds := [JNum 1]; error := JNull;
       newTitle := "x"; editingId := JNull; editingTitle := "";
       calls := [] |} in
  let res := JObj 1 [("items", JArr 2 [JObj 3 [("id", JNum 1)]])] in
  todos (refresh local (Ok res)) = todos (refresh initial (Ok res)).
Proof.
  cbv zeta.
  match goal with
  | |- todos (refresh ?s (Ok ?r)) = todos (refresh ?s' _) =>
      destruct (refresh_effects s s' r AbortError (Ok r)) as (H & _)
  end.
  apply H. reflexivity.
Defined.

(** X20: The row of the initial load is shown until the first Refresh settles
    and never again: every Refresh ends with [initialLoading] false, and no
    operation sets it back. *)
Theorem loading_row_never_returns
  (now : Z) (view st : State) (todo : Todo) (r1 r2 : Result JsVal) :
  initialLoading st = false ->
  initialLoading (refresh st r1) = false
  /\ listView (refresh initial r1) <> LoadingRow
  /\ initialLoading (handleAdd now view st r1 r2) = false
  /\ initialLoading (handleToggle st todo r1 r2) = false
  /\ initialLoading (saveEdit view st todo r1 r2) = false
  /\ initialLoading (handleDelete view st todo r1) = false.
Proof.
  intros H.
  assert (Hr : forall s l, initialLoading (refresh s l) = false)
    by (intros s l; apply (refresh_frame s l)).
  split; [apply Hr|]. split.
  { unfold listView. rewrite Hr.
    destruct (Nat.eqb _ 0); discriminate. }
  split; [|split; [|split]].
  - unfold handleAdd.
    destruct (negb (truthy (JStr (trim (newTitle view))))); [exact H|].
    destruct r1 as [c|e]; [exact H|].
    apply (Hr (setError (toErrorMessage e) (handleAdd_begin now view st)) r2).
  - unfold handleToggle. destruct (negb (truthy (id todo))); [exact H|].
    destruct r1 as [u|e]; [exact H|].
    apply (Hr (setError (toErrorMessage e) (handleToggle_begin todo st)) r2).
  - unfold saveEdit.
    destruct (negb (truthy (JStr (trim (editingTitle view))))); [exact H|].
    destruct r1 as [u|e]; [exact H|].
    apply (Hr (setError (toErrorMessage e) (saveEdit_begin view todo st)) r2).
  - unfold handleDelete. destruct (negb (truthy (id todo))); [exact H|].
    destruct r1 as [u|e]; exact H.
Qed.

Lemma loading_row_never_returns_witness :
  let st := refresh initial (Throw AbortError) in
  let todo := normalizeTodo (JObj 1 [("id", JNum 1)]) in
  initialLoading initial = true
  /\ initialLoading (handleToggle st todo (Throw AbortError) (Throw AbortError))
     = false.
Proof.
  cbv zeta. split; [reflexivity|].
  match goal with
  | |- initialLoading (handleToggle ?s ?t ?a ?b) = _ =>
      destruct (loading_row_never_returns 0 s s t a b) as (_ & _ & _ & H & _)
  end.
  - reflexivity.
  - exact H.
Defined.

(** ** Failures and how operations meet *)

(** X21: an Add whose create call fails: when the list call of the recovery
    succeeds with an array, the list is the one of the service and the
    placeholder is gone with the rest; when the list call fails too, the
    placeholder stays in the list and the banner shows the failure of the
    list call.  Either way the input stays empty: the title typed is not
    put back. *)
Theorem add_failure_outcomes
  (now : Z) (view st : State) (e e' : Exn) (r : nat) (l : list JsVal)
  (listed : Result JsVal) :
  trim (newTitle view) <> "" ->
  todos (handleAdd now view st (Throw e) (Ok (JArr r l)))
    = filter has_id (map normalizeTodo l)
  /\ todos (handleAdd now view st (Throw e) (Throw e'))
     = {| id := tempId now; title := JStr (trim (newTitle view));
          completed := false; raw := JNull |} :: todos st
  /\ error (handleAdd now view st (Throw e) (Throw e')) = toErrorMessage e'
  /\ newTitle (handleAdd now view st (Throw e) listed) = ""
  /\ calls (handleAdd now view st (Throw e) listed)
     = (calls st ++ [CallCreate (JStr (trim (newTitle view))); CallList])%list.
Proof.
  intros Htitle. apply truthy_JStr in Htitle.
  unfold handleAdd. rewrite Htitle. cbn [negb].
  split; [reflexivity|]. split; [reflexivity|]. split; [reflexivity|].
  unfold handleAdd_failed.
  change (refresh_end listed (refresh_begin ?s)) with (refresh s listed).
  destruct (refresh_frame
              (setError (toErrorMessage e) (handleAdd_begin now view st)) listed)
    as (_ & Hnew & _ & _ & Hcalls & _).
  split.
  - rewrite Hnew. reflexivity.
  - rewrite Hcalls. simpl. rewrite <- app_assoc. reflexivity.
Qed.

Lemma add_failure_outcomes_witness :
  let st :=
    {| todos := []; initialLoading := false; savingIds := []; error := JNull;
       newTitle := "Buy milk"; editingId := JNull; editingTitle := "";
       calls := [] |} in
  let down := ExnError {| err_name := "TypeError"; err_message := "Failed to fetch";
                          err_status := None; err_payload := None |} in
  todos (handleAdd 7 st st (Throw down) (Throw down))
    = [ {| id := JStr "temp-7"; title := JStr "Buy milk"; completed := false;
           raw := JNull |} ]
  /\ newTitle (handleAdd 7 st st (Throw down) (Throw down)) = "".
Proof.
  cbv zeta.
  match goal with
  | |- todos (handleAdd ?n ?s ?s (Throw ?e) (Throw ?e')) = _ /\ _ =>
      destruct (add_failure_outcomes n s s e e' 0 [] (Throw e'))
        as (_ & Hkeep & _ & Hinput & _)
  end.
  - simpl. discriminate.
  - split; [rewrite Hkeep; reflexivity|exact Hinput].
Defined.

(** X22: When the call of a Toggle or of an Edit fails and the list call of the
    recovery fails as well, the optimistic change is not taken back: the
    list keeps the flipped value or the new title, and the banner shows the
    failure of the list call.  After a failed Edit the edit mode stays
    open with its text, however the recovery went. *)
Theorem failed_recovery_keeps_optimistic_change
  (view st : State) (todo : Todo) (e e' : Exn) (listed : Result JsVal) :
  truthy (id todo) = true ->
  trim (editingTitle view) <> "" ->
  todos (handleToggle st todo (Throw e) (Throw e'))
    = map (fun t => if strict_eq (id t) (id todo)
                    then with_completed (negb (completed todo)) t else t)
          (todos st)
  /\ error (handleToggle st todo (Throw e) (Throw e')) = toErrorMessage e'
  /\ todos (saveEdit view st todo (Throw e) (Throw e'))
     = map (fun t => if strict_eq (id t) (id todo)
                     then with_title (JStr (trim (editingTitle view))) t else t)
           (todos st)
  /\ error (saveEdit view st todo (Throw e) (Throw e')) = toErrorMessage e'
  /\ editingId (saveEdit view st todo (Throw e) listed) = editingId st
  /\ editingTitle (saveEdit view st todo (Throw e) listed) = editingTitle st.
Proof.
  intros Hid Hedit. apply truthy_JStr in Hedit.
  unfold handleToggle, saveEdit. rewrite Hid, Hedit. cbn [negb].
  split; [reflexivity|]. split; [reflexivity|]. split; [reflexivity|].
  split; [reflexivity|].
  destruct (refresh_frame
              (setError (toErrorMessage e) (saveEdit_begin view todo st)) listed)
    as (_ & _ & Hid' & Htext & _).
  split.
  - change (editingId (setSaving (id todo) false ?s)) with (editingId s).
    rewrite Hid'. reflexivity.
  - change (editingTitle (setSaving (id todo) false ?s)) with (editingTitle s).
    rewrite Htext. reflexivity.
Qed.

Lemma failed_recovery_keeps_optimistic_change_witness :
  let a := normalizeTodo (JObj 2 [("id", JNum 1); ("title", JStr "a")]) in
  let st :=
    {| todos := [a]; initialLoading := false; savingIds := []; error := JNull;
       newTitle := ""; editingId := JNum 1; editingTitle := "b";
       calls := [] |} in
  let down := ExnError {| err_name := "TypeError"; err_message := "Failed to fetch";
                          err_status := None; err_payload := None |} in
  todos (handleToggle st a (Throw down) (Throw down)) = [with_completed true a]
  /\ error (handleToggle st a (Throw down) (Throw down)) = JStr "Failed to fetch".
Proof.
  cbv zeta.
  match goal with
  | |- todos (handleToggle ?s ?t (Throw ?e) (Throw ?e')) = _ /\ _ =>
      destruct (failed_recovery_keeps_optimistic_change s s t e e' (Throw e'))
        as (Hflip & Herr & _)
  end.
  - reflexivity.
  - simpl. discriminate.
  - split; [rewrite Hflip; reflexivity|rewrite Herr; reflexivity].
Defined.

(** X23: a Delete that fails puts back the list of the render it was started
    from: a task added in the meantime, whose create call succeeded, is in
    the list before the rollback and no longer after it. *)
Theorem delete_rollback_drops_concurrent_add
  (now : Z) (st : State) (todo : Todo) (e : Exn) (created : JsVal)
  (listed : Result JsVal) :
  truthy (id todo) = true ->
  trim (newTitle st) <> "" ->
  ~ In (normalizeTodo created) (todos st) ->
  let s1 := handleDelete_begin todo st in
  let s2 := handleAdd now s1 s1 (Ok created) listed in
  let s3 := handleDelete_end st todo (Throw e) s2 in
  In (normalizeTodo created) (todos s2)
  /\ todos s3 = todos st
  /\ ~ In (normalizeTodo created) (todos s3)
  /\ In (CallCreate (JStr (trim (newTitle st)))) (calls s3).
Proof.
  intros Hid Htitle Hnew. cbv zeta. apply truthy_JStr in Htitle.
  assert (Hs2 : handleAdd now (handleDelete_begin todo st) (handleDelete_begin todo st)
                  (Ok created) listed
                = handleAdd_created now created
                    (handleAdd_begin now (handleDelete_begin todo st)
                       (handleDelete_begin todo st))).
  { unfold handleAdd. cbn [newTitle handleDelete_begin issue setTodos setSaving
                           setSavingIds setError].
    rewrite Htitle. reflexivity. }
  rewrite Hs2. split; [|split; [reflexivity|split; [exact Hnew|]]].
  - simpl. rewrite String.eqb_refl. left. reflexivity.
  - simpl. apply in_or_app. right. left. reflexivity.
Qed.

Lemma delete_rollback_drops_concurrent_add_witness :
  let a := normalizeTodo (JObj 2 [("id", JNum 1); ("title", JStr "a")]) in
  let st :=
    {| todos := [a]; initialLoading := false; savingIds := []; error := JNull;
       newTitle := "b"; editingId := JNull; editingTitle := "";
       calls := [] |} in
  let created := JObj 3 [("id", JNum 2); ("title", JStr "b")] in
  let s1 := handleDelete_begin a st in
  let s2 := handleAdd 7 s1 s1 (Ok created) (Ok JNull) in
  todos s2 = [normalizeTodo created]
  /\ todos (handleDelete_end st a (Throw (ExnError (new_Error "boom"))) s2) = [a].
Proof.
  cbv zeta. split; [reflexivity|].
  match goal with
  | |- todos (handleDelete_end ?s ?t (Throw ?e)
                (handleAdd ?n _ _ (Ok ?c) ?l)) = _ =>
      destruct (delete_rollback_drops_concurrent_add n s t e c l)
        as (_ & H & _)
  end.
  - reflexivity.
  - simpl. discriminate.
  - simpl. intros [H|[]]. discriminate H.
  - exact H.
Defined.

(** ** Temporary identifiers *)

Lemma Z_to_string_inj (a b : Z) : Z_to_string a = Z_to_string b -> a = b.
Proof.
  unfold Z_to_string. intros H.
  apply DecimalZ.to_int_inj.
  assert (Hnil : forall z, Z.to_int z <> Decimal.Pos Decimal.Nil
                           /\ Z.to_int z <> Decimal.Neg Decimal.Nil).
  { intros [|p|p]; simpl; split; try discriminate;
      intros [= Hp]; apply (DecimalPos.Unsigned.to_uint_nonnil p Hp). }
  apply (f_equal NilZero.int_of_string) in H.
  rewrite !NilZero.isi in H by apply Hnil.
  congruence.
Qed.

(** X24: Placeholders made at different times have different identifiers, and
    a temporary identifier passes the guards of Toggle and Delete; the
    record of one Add replaces its own placeholder and leaves the
    placeholder of another Add in the list. *)
Theorem tempId_distinct (now now' : Z) (created : JsVal) (later : State) :
  now <> now' ->
  strict_eq (tempId now) (tempId now') = false
  /\ truthy (tempId now) = true
  /\ (forall t, In t (todos later) -> id t = tempId now' ->
                In t (todos (handleAdd_created now created later))).
Proof.
  intros Hne.
  assert (Hdiff : strict_eq (tempId now) (tempId now') = false).
  { unfold tempId. simpl. apply String.eqb_neq. intros H.
    apply Hne, Z_to_string_inj. exact H. }
  split; [exact Hdiff|]. split; [reflexivity|].
  intros t Hin Hid. simpl. apply in_map_iff. exists t. split; [|exact Hin].
  rewrite Hid, strict_eq_sym, Hdiff. reflexivity.
Qed.

Lemma tempId_distinct_witness :
  let p1 := {| id := tempId 1700000000001; title := JStr "a";
               completed := false; raw := JNull |} in
  let p2 := {| id := tempId 1700000000002; title := JStr "b";
               completed := false; raw := JNull |} in
  let later :=
    {| todos := [p2; p1]; initialLoading := false; savingIds := [];
       error := JNull; newTitle := ""; editingId := JNull; editingTitle := "";
       calls := [] |} in
  In p2 (todos (handleAdd_created 1700000000001 (JObj 1 [("id", JNum 1)]) later)).
Proof.
  cbv zeta.
  match goal with
  | |- In ?p (todos (handleAdd_created ?n ?c ?s)) =>
      destruct (tempId_distinct n 1700000000002 c s) as (_ & _ & H)
  end.
  - discriminate.
  - apply H; [simpl; auto|reflexivity].
Defined.

(** X25: Two Adds in the same millisecond share their temporary identifier:
    when the first create call resolves, both placeholders become the
    record of the first, and when the second resolves nothing is left to
    replace, so that its record is not shown. *)
Theorem same_millisecond_adds_collide
  (now : Z) (v1 v2 st : State) (c1 c2 : JsVal) :
  strict_eq (id (normalizeTodo c1)) (tempId now) = false ->
  let st2 := handleAdd_begin now v2 (handleAdd_begin now v1 st) in
  let st3 := handleAdd_created now c1 st2 in
  nth_error (todos st3) 0 = Some (normalizeTodo c1)
  /\ nth_error (todos st3) 1 = Some (normalizeTodo c1)
  /\ todos (handleAdd_created now c2 st3) = todos st3.
Proof.
  intros Hfresh. cbv zeta. split; [|split].
  - simpl. rewrite String.eqb_refl. reflexivity.
  - simpl. rewrite String.eqb_refl. reflexivity.
  - unfold handleAdd_created at 1. cbn [todos setTodos].
    rewrite <- (map_id (todos (handleAdd_created now c1 _))) at 2.
    apply map_ext_in. intros t Ht.
    unfold handleAdd_created in Ht. cbn [todos setTodos] in Ht.
    apply in_map_iff in Ht. destruct Ht as (t0 & <- & _).
    destruct (strict_eq (id t0) (tempId now)) eqn:E.
    + rewrite Hfresh. reflexivity.
    + rewrite E. reflexivity.
Qed.

Lemma same_millisecond_adds_collide_witness :
  let v1 := setNewTitle "a" initial in
  let v2 := setNewTitle "b" initial in
  let c1 := JObj 1 [("id", JNum 1); ("title", JStr "a")] in
  let c2 := JObj 2 [("id", JNum 2); ("title", JStr "b")] in
  let st3 := handleAdd_created 7 c1
               (handleAdd_begin 7 v2 (handleAdd_begin 7 v1 initial)) in
  todos st3 = [normalizeTodo c1; normalizeTodo c1]
  /\ todos (handleAdd_created 7 c2 st3) = [normalizeTodo c1; normalizeTodo c1].
Proof.
  cbv zeta. split; [reflexivity|].
  match goal with
  | |- todos (handleAdd_created ?n ?c2
                (handleAdd_created _ ?c1 (handleAdd_begin _ ?v2
                                            (handleAdd_begin _ ?v1 ?s)))) = _ =>
      destruct (same_millisecond_adds_collide n v1 v2 s c1 c2) as (_ & _ & H)
  end.
  - reflexivity.
  - rewrite H. reflexivity.
Defined.

(** ** From the network to the banner *)

(** X9: When no response has come by the time the timer fires, each of the
    four calls fails with the error of the timeout, which has no status. *)
Theorem timer_bounds_every_call
  (env : option string) (net : Request -> Exchange) (v w : JsVal) :
  (forall req, DEFAULT_TIMEOUT_MS < settles_at (net req)) ->
  let timed_out := Throw (ExnError (new_Error timed_out_message)) in
  listTodos env net = timed_out
  /\ createTodo env net v = timed_out
  /\ updateTodo env net v w = timed_out
  /\ deleteTodo env net v = timed_out
  /\ err_status (new_Error timed_out_message) = None.
Proof.
  intros Hlate. cbv zeta.
  unfold listTodos, createTodo, updateTodo, deleteTodo.
  repeat split; apply fetch_pending_at_timeout; auto.
Qed.

Lemma timer_bounds_every_call_witness :
  updateTodo None (fun _ => {| settles_at := 15001; outcome := Rejects AbortError |})
             (JNum 1) (JObj 0 [("completed", JBool true)])
  = Throw (ExnError (new_Error timed_out_message)).
Proof.
  destruct (timer_bounds_every_call None
              (fun _ => {| settles_at := 15001; outcome := Rejects AbortError |})
              (JNum 1) (JObj 0 [("completed", JBool true)]))
    as (_ & _ & H & _).
  - intros req. unfold DEFAULT_TIMEOUT_MS. simpl. lia.
  - exact H.
Defined.

Lemma text_body_pending_at_timeout_witness :
  let res := {| status := 200; content_type := Some "text/html";
                body_at := 20000; body_text := "<html>"; body_json := None |} in
  listTodos None (fun _ => {| settles_at := 120; outcome := Resolves res |})
  = Throw (ExnError (new_Error timed_out_message)).
Proof.
  cbv zeta. unfold listTodos.
  eapply text_body_pending_at_timeout.
  - reflexivity.
  - intros req. reflexivity.
  - unfold DEFAULT_TIMEOUT_MS. lia.
  - reflexivity.
  - unfold DEFAULT_TIMEOUT_MS. simpl. lia.
Defined.

(** X26: a Delete and a Refresh that meet the timeout: the banner shows the
    sentence of the timeout and the list is the one of before. *)
Theorem timeout_reaches_banner
  (env : option string) (net : Request -> Exchange) (st : State) (todo : Todo) :
  (forall req, DEFAULT_TIMEOUT_MS < settles_at (net req)) ->
  truthy (id todo) = true ->
  let deleted := handleDelete st st todo (deleteTodo env net (id todo)) in
  let refreshed := refresh st (listTodos env net) in
  error deleted = JStr "Request timed out. Please try again."
  /\ todos deleted = todos st
  /\ error refreshed = JStr "Request timed out. Please try again."
  /\ todos refreshed = todos st.
Proof.
  intros Hlate Hid. cbv zeta.
  assert (Hd : deleteTodo env net (id todo)
               = Throw (ExnError (new_Error timed_out_message)))
    by (apply fetch_pending_at_timeout; auto).
  assert (Hl : listTodos env net = Throw (ExnError (new_Error timed_out_message)))
    by (apply fetch_pending_at_timeout; auto).
  rewrite Hd, Hl. unfold handleDelete. rewrite Hid.
  repeat split.
Qed.

Lemma timeout_reaches_banner_witness :
  let a := normalizeTodo (JObj 2 [("id", JNum 1); ("title", JStr "a")]) in
  let st :=
    {| todos := [a]; initialLoading := false; savingIds := []; error := JNull;
       newTitle := ""; editingId := JNull; editingTitle := "";
       calls := [] |} in
  let net := fun _ : Request =>
    {| settles_at := 30000; outcome := Rejects AbortError |} in
  error (handleDelete st st a (deleteTodo None net (id a)))
    = JStr "Request timed out. Please try again."
  /\ todos (handleDelete st st a (deleteTodo None net (id a))) = [a].
Proof.
  cbv zeta.
  match goal with
  | |- error (handleDelete ?s ?s ?t (deleteTodo ?e ?n _)) = _ /\ _ =>
      destruct (timeout_reaches_banner e n s t) as (H1 & H2 & _)
  end.
  - intros req. unfold DEFAULT_TIMEOUT_MS. simpl. lia.
  - reflexivity.
  - split; [exact H1|exact H2].
Defined.

Lemma fetchJson_failed_json
  (env : option string) (net : Request -> Exchange) (path : string)
  (opts : Options) (t : Z) (res : Response) (payload : JsVal) :
  signal opts = None ->
  (forall req, net req = {| settles_at := t; outcome := Resolves res |}) ->
  t <= DEFAULT_TIMEOUT_MS ->
  body_at res <= DEFAULT_TIMEOUT_MS ->
  ok res = false ->
  includes "application/json"
    (match content_type res with Some c => c | None => "" end) = true ->
  body_json res = Some payload ->
  fetchJson env net path opts =
    Throw (ExnError {| err_name := "Error";
                       err_message := to_string (failure_message payload res);
                       err_status := Some (status res);
                       err_payload := Some payload |}).
Proof.
  intros own_timer Hnet Ht Hbody Hok Hjson Hpayload.
  unfold fetchJson, fetch. rewrite own_timer, Hnet. cbn [settles_at outcome].
  rewrite (proj2 (not_aborted_by_timer t) Ht). cbn [bind].
  rewrite Hjson. unfold res_json.
  rewrite (proj2 (not_aborted_by_timer _) Hbody), Hpayload.
  cbn [catch bind]. rewrite Hok. reflexivity.
Qed.

(** X27: The [detail] that the service gives with a failed delete or a failed
    list call is the text of the banner, and the list is the one of before. *)
Theorem server_detail_reaches_banner
  (env : option string) (net : Request -> Exchange) (st : State) (todo : Todo)
  (t : Z) (res : Response) (r : nat) (ps : list (string * JsVal)) (detail : string) :
  (forall req, net req = {| settles_at := t; outcome := Resolves res |}) ->
  t <= DEFAULT_TIMEOUT_MS ->
  body_at res <= DEFAULT_TIMEOUT_MS ->
  ok res = false ->
  includes "application/json"
    (match content_type res with Some c => c | None => "" end) = true ->
  body_json res = Some (JObj r ps) ->
  lookup "detail" ps = JStr detail ->
  detail <> "" ->
  truthy (id todo) = true ->
  let deleted := handleDelete st st todo (deleteTodo env net (id todo)) in
  let refreshed := refresh st (listTodos env net) in
  error deleted = JStr detail
  /\ todos deleted = todos st
  /\ error refreshed = JStr detail
  /\ todos refreshed = todos st.
Proof.
  intros Hnet Ht Hbody Hok Hjson Hpayload Hdetail Hne Hid. cbv zeta.
  assert (Hmsg : to_string (failure_message (JObj r ps) res) = detail).
  { unfold failure_message, js_or, js_and.
    cbn [truthy typeof String.eqb Ascii.eqb Bool.eqb get].
    rewrite Hdetail. destruct detail as [|a d]; [congruence|]. reflexivity. }
  assert (Hbanner : forall err,
             err_message err = detail -> toErrorMessage (ExnError err) = JStr detail).
  { intros err Herr. unfold toErrorMessage, js_or. rewrite Herr.
    destruct detail as [|a d]; [congruence|]. reflexivity. }
  unfold deleteTodo, listTodos.
  rewrite !(fetchJson_failed_json env net _ _ t res (JObj r ps))
    by (auto; reflexivity).
  unfold handleDelete. rewrite Hid. cbn [negb].
  repeat split; apply Hbanner; exact Hmsg.
Qed.

Lemma server_detail_reaches_banner_witness :
  let a := normalizeTodo (JObj 2 [("id", JNum 1); ("title", JStr "a")]) in
  let st :=
    {| todos := [a]; initialLoading := false; savingIds := []; error := JNull;
       newTitle := ""; editingId := JNull; editingTitle := "";
       calls := [] |} in
  let res := {| status := 404; content_type := Some "application/json";
                body_at := 45; body_text := "";
                body_json := Some (JObj 5 [("detail", JStr "Todo not found")]) |} in
  let net := fun _ : Request => {| settles_at := 40; outcome := Resolves res |} in
  error (handleDelete st st a (deleteTodo None net (id a))) = JStr "Todo not found"
  /\ todos (handleDelete st st a (deleteTodo None net (id a))) = [a].
Proof.
  cbv zeta.
  match goal with
  | |- error (handleDelete ?s ?s ?t0 (deleteTodo ?e ?n _)) = _ /\ _ =>
      destruct (server_detail_reaches_banner e n s t0 40
                  {| status := 404; content_type := Some "application/json";
                     body_at := 45; body_text := "";
                     body_json := Some (JObj 5 [("detail", JStr "Todo not found")]) |}
                  5 [("detail", JStr "Todo not found")] "Todo not found")
        as (H1 & H2 & _)
  end.
  - intros req. reflexivity.
  - unfold DEFAULT_TIMEOUT_MS. lia.
  - unfold DEFAULT_TIMEOUT_MS. simpl. lia.
  - reflexivity.
  - reflexivity.
  - reflexivity.
  - reflexivity.
  - discriminate.
  - reflexivity.
  - split; [exact H1|exact H2].
Defined.

(** ** The buttons and the guards *)

(** X28: a button that is enabled leads to the call: with the Add button
    enabled, the handler passes its guard and sends one create call with
    the trimmed, non-empty title; with the Save button of a row enabled,
    the row is not in flight and the handler sends one update with the
    trimmed, non-empty text.  During the initial load the Add button is
    disabled. *)
Theorem enabled_buttons_pass_the_guards
  (now : Z) (st : State) (todo : Todo) (c u : JsVal) (listed : Result JsVal) :
  (addDisabled st = false ->
     trim (newTitle st) <> ""
     /\ calls (handleAdd now st st (Ok c) listed)
        = (calls st ++ [CallCreate (JStr (trim (newTitle st)))])%list)
  /\ (saveDisabled st todo = false ->
     trim (editingTitle st) <> ""
     /\ isSaving st (id todo) = false
     /\ calls (saveEdit st st todo (Ok u) listed)
        = (calls st ++ [CallUpdate (id todo)
                          (JObj 0 [("title", JStr (trim (editingTitle st)))])])%list)
  /\ (initialLoading st = true -> addDisabled st = true).
Proof.
  split; [|split].
  - unfold addDisabled, isBusy. intros H.
    apply orb_false_elim in H. destruct H as [_ H].
    apply negb_false_iff in H. split; [apply truthy_JStr, H|].
    unfold handleAdd. rewrite H. reflexivity.
  - unfold saveDisabled. intros H.
    apply orb_false_elim in H. destruct H as [Hs H].
    apply negb_false_iff in H. split; [apply truthy_JStr, H|].
    split; [exact Hs|].
    unfold saveEdit. rewrite H. reflexivity.
  - unfold addDisabled, isBusy. intros ->. reflexivity.
Qed.

Lemma enabled_buttons_pass_the_guards_witness :
  let st :=
    {| todos := []; initialLoading := false; savingIds := []; error := JNull;
       newTitle := " Buy milk"; editingId := JNull; editingTitle := "";
       calls := [CallList] |} in
  calls (handleAdd 7 st st (Ok JNull) (Ok JNull))
  = [CallList; CallCreate (JStr "Buy milk")].
Proof.
  cbv zeta.
  match goal with
  | |- calls (handleAdd ?n ?s ?s (Ok ?c) ?l) = _ =>
      destruct (enabled_buttons_pass_the_guards n s
                  (normalizeTodo JNull) c c l) as (H & _)
  end.
  destruct H as [_ H]; [reflexivity|].
  rewrite H. reflexivity.
Defined.

(** ** Identifiers in the list *)

(** X29: After a Refresh that received an array, the list holds exactly the
    normalized records of the array in which one of [id], [todo_id], [_id]
    is present, in the order of the array. *)
Theorem refresh_shows_identified_records
  (st : State) (r : nat) (records : list JsVal) :
  let shown := todos (refresh st (Ok (JArr r records))) in
  (forall t, In t shown <->
             exists record, In record records /\ t = normalizeTodo record
               /\ exists k, In k ["id"; "todo_id"; "_id"]
                            /\ nullish (get record k) = false)
  /\ shown = map normalizeTodo
               (filter (fun record => has_id (normalizeTodo record)) records)
  /\ (List.length shown <= List.length records)%nat.
Proof.
  cbv zeta.
  change (todos (refresh st (Ok (JArr r records))))
    with (filter has_id (map normalizeTodo records)).
  split; [|split].
  - intros t. rewrite filter_In, in_map_iff. split.
    + intros [(record & <- & Hin) Hid].
      exists record. split; [exact Hin|]. split; [reflexivity|].
      apply normalizeTodo_id_resolved.
      rewrite has_id_nullish in Hid. apply negb_true_iff. exact Hid.
    + intros (record & Hin & -> & Hk). split.
      * exists record. auto.
      * rewrite has_id_nullish. apply negb_true_iff.
        apply normalizeTodo_id_resolved. exact Hk.
  - induction records as [|x l IH]; [reflexivity|].
    cbn [map filter]. destruct (has_id (normalizeTodo x)); cbn [map]; rewrite IH;
      reflexivity.
  - rewrite <- (List.length_map normalizeTodo records).
    apply filter_length_le.
Qed.

(** X30: Refresh, Toggle, Edit and Delete, and Add while its call is under way
    or when it fails, keep a list in which every task has an identifier
    (for Delete, when the list of the render it was started from is such a
    list too). *)
Theorem operations_keep_identifiers
  (now : Z) (view st : State) (todo : Todo) (e : Exn) (r1 r2 : Result JsVal) :
  identified (todos st) ->
  identified (todos view) ->
  identified (todos (refresh st r1))
  /\ identified (todos (handleToggle st todo r1 r2))
  /\ identified (todos (saveEdit view st todo r1 r2))
  /\ identified (todos (handleDelete view st todo r1))
  /\ identified (todos (handleAdd_begin now view st))
  /\ identified (todos (handleAdd now view st (Throw e) r2)).
Proof.
  intros H Hv.
  split; [apply refresh_identified, H|].
  split; [apply handleToggle_identified, H|].
  split; [apply saveEdit_identified, H|].
  split; [apply handleDelete_identified; assumption|].
  apply handleAdd_pending_identified, H.
Qed.

Lemma operations_keep_identifiers_witness :
  let a := normalizeTodo (JObj 2 [("id", JNum 0); ("title", JStr "a")]) in
  let st :=
    {| todos := [a]; initialLoading := false; savingIds := []; error := JNull;
       newTitle := "b"; editingId := JNum 0; editingTitle := "c";
       calls := [] |} in
  identified (todos (saveEdit st st a (Throw AbortError)
                       (Ok (JArr 1 [JNull; JObj 3 [("_id", JStr "x")]])))).
Proof.
  cbv zeta.
  match goal with
  | |- identified (todos (saveEdit ?v ?s ?t ?a ?b)) =>
      destruct (operations_keep_identifiers 0 v s t AbortError a b)
        as (_ & _ & H & _)
  end.
  - repeat constructor.
  - repeat constructor.
  - exact H.
Defined.
